(** * Kaprekar's routine on 4-digit numerals

    A shallow embedding of [kaprekar_all.py] (batch analysis) and
    [kaprekar.py] (interactive single-number tool), and the properties
    of the Kaprekar step, of the step counter and of the batch driver
    that the specification states about them. *)

From Stdlib Require Import ZArith List String Ascii DecimalString Bool Lia.
From Stdlib Require Import Sorting.Permutation Sorting.Sorted.
From Equations Require Import Equations.
Import ListNotations.

Local Open Scope string_scope.
Local Open Scope Z_scope.

(** ** The Python builtins the programs use

    A Python [str] is a sequence of code points.  The type [string] of
    the Standard Library holds the code points below 256 (ASCII and the
    Latin-1 supplement); the builtins are modelled on that alphabet. *)

Module Py.

(** [int()] is the only operation of the two programs that can raise;
    an uncaught [ValueError] ends the run. *)
Inductive exc (A : Type) : Type :=
| Ok (a : A)
| ValueError.
Arguments Ok {A} a.
Arguments ValueError {A}.

Definition bind {A B : Type} (m : exc A) (k : A -> exc B) : exc B :=
  match m with
  | Ok a => k a
  | ValueError => ValueError
  end.

Definition chars : string -> list ascii := list_ascii_of_string.
Definition join : list ascii -> string := string_of_list_ascii.

Definition code (c : ascii) : Z := Z.of_N (N_of_ascii c).

(** [len(s)] *)
Definition len (s : string) : Z := Z.of_nat (String.length s).

(** [sorted(s)] and [sorted(s, reverse=True)]: the characters of [s]
    in code point order.  Characters that compare equal are the same
    character, so the stability of Python's sort is not observable. *)
Fixpoint insert (le : ascii -> ascii -> bool) (c : ascii) (l : list ascii)
  : list ascii :=
  match l with
  | [] => [c]
  | d :: r => if le c d then c :: d :: r else d :: insert le c r
  end.

Definition char_le (reverse : bool) (a b : ascii) : bool :=
  if reverse then Ascii.leb b a else Ascii.leb a b.

Definition sorted (s : string) (reverse : bool) : list ascii :=
  fold_right (insert (char_le reverse)) [] (chars s).

(** [str(n)] for an integer [n]. *)
Definition str (n : Z) : string := NilZero.string_of_int (Z.to_int n).

(** [s.zfill(width)]: zeros go after a leading sign. *)
Definition is_sign (c : ascii) : bool :=
  (c =? "+")%char || (c =? "-")%char.

Definition zfill (s : string) (width : Z) : string :=
  if width <=? len s then s
  else
    let fill := join (repeat "0"%char (Z.to_nat (width - len s))) in
    match s with
    | String c r => if is_sign c then String c (fill ++ r) else fill ++ s
    | EmptyString => fill
    end.

(** [int(s)] in base 10: surrounding white space, an optional sign,
    then decimal digits, single underscores allowed between digits.
    Anything else raises [ValueError].  (The interpreter's limit on
    the number of digits, 4300 by default, is not modelled.) *)
Definition int_space (c : ascii) : bool :=
  ((9 <=? code c) && (code c <=? 13)) || (code c =? 32)
  || (code c =? 133) || (code c =? 160).

Definition digit_val (c : ascii) : option Z :=
  if (48 <=? code c) && (code c <=? 57) then Some (code c - 48) else None.

Fixpoint lstrip (l : list ascii) : list ascii :=
  match l with
  | c :: r => if int_space c then lstrip r else l
  | [] => []
  end.

Definition strip (l : list ascii) : list ascii :=
  rev (lstrip (rev (lstrip l))).

Fixpoint int_digits (l : list ascii) (acc : Z) (after_digit : bool)
  : exc Z :=
  match l with
  | [] => if after_digit then Ok acc else ValueError
  | c :: r =>
      match digit_val c with
      | Some d => int_digits r (10 * acc + d) true
      | None =>
          if (c =? "_")%char && after_digit then int_digits r acc false
          else ValueError
      end
  end.

Definition int (s : string) : exc Z :=
  match strip (chars s) with
  | c :: r =>
      if (c =? "+")%char then int_digits r 0 false
      else if (c =? "-")%char then bind (int_digits r 0 false) (fun n => Ok (- n))
      else int_digits (c :: r) 0 false
  | [] => ValueError
  end.

(** [len(set(s))]: the number of distinct characters of [s]. *)
Definition len_set (s : string) : Z :=
  Z.of_nat (List.length (nodup ascii_dec (chars s))).

(** [s.isdigit()]: non-empty and every character has the Unicode
    property Numeric_Type Digit or Decimal.  Below 256 those are
    [0]-[9] and the superscripts U+00B2, U+00B3 and U+00B9. *)
Definition isdigit_char (c : ascii) : bool :=
  ((48 <=? code c) && (code c <=? 57))
  || (code c =? 178) || (code c =? 179) || (code c =? 185).

Definition isdigit (s : string) : bool :=
  negb (len s =? 0) && forallb isdigit_char (chars s).

(** [range(lo, hi)] *)
Fixpoint range_from (lo : Z) (n : nat) : list Z :=
  match n with
  | O => []
  | S n' => lo :: range_from (lo + 1) n'
  end.

Definition range (lo hi : Z) : list Z :=
  range_from lo (Z.to_nat (hi - lo)).

(** [max(l)] on a list of integers; the empty list raises [ValueError]. *)
Definition max (l : list Z) : exc Z :=
  match l with
  | [] => ValueError
  | x :: r => Ok (fold_left Z.max r x)
  end.

End Py.

Notation "x <- m ;; k" := (Py.bind m (fun x => k))
  (at level 61, m at next level, right associativity).

(** ** kaprekar_all.py *)

Module KaprekarAll.
Import Py.

Definition KAPREKAR_CONST : string := "6174".

(** The argument is a [str] at every call in the program, so the
    leading [str(num_str)] is the identity. *)
Definition kaprekar_once (num_str : string) : exc string :=
  let num_str := zfill num_str 4 in
  let largest := join (sorted num_str true) in
  let smallest := join (sorted num_str false) in
  a <- int largest ;;
  b <- int smallest ;;
  Ok (zfill (str (a - b)) 4).

Definition is_repdigit (num_str : string) : bool :=
  let s := zfill num_str 4 in
  len_set s =? 1.

(** The four [return] statements of [steps_to_kaprekar]. *)
Inductive exit : Type :=
| RepdigitNone              (* line 30: [return None], repdigit start *)
| ZeroNone                  (* line 36: [return None], collapsed to 0000 *)
| Steps (steps : Z)         (* line 38: [return steps] *)
| CapNone.                  (* line 39: [return None], cap reached *)

(** The value returned: an [int] or [None]. *)
Definition returned (e : exit) : option Z :=
  match e with
  | Steps n => Some n
  | RepdigitNone | ZeroNone | CapNone => None
  end.

Definition inspect {A : Type} (a : A) : {b : A | a = b} :=
  exist _ a eq_refl.

(** The [while] loop of [steps_to_kaprekar] with the two statements
    after it, from the state [(s, steps)].  Every iteration increases
    [steps], and the guard bounds it by [max_iter]. *)
Equations? while_loop (max_iter : Z) (s : string) (steps : Z) : exc exit
  by wf (Z.to_nat (max_iter - steps)) lt :=
  while_loop max_iter s steps
    with inspect (negb (s =? KAPREKAR_CONST)%string && (steps <? max_iter)) := {
    | exist _ true _ with kaprekar_once s := {
      | ValueError => ValueError
      | Ok s' =>
          if (s' =? "0000")%string then Ok ZeroNone
          else while_loop max_iter s' (steps + 1) }
    | exist _ false _ =>
        if (s =? KAPREKAR_CONST)%string then Ok (Steps steps)
        else Ok CapNone }.
Proof.
  apply andb_prop in e as [_ e]. apply Z.ltb_lt in e. lia.
Qed.

Definition steps_to_kaprekar_exit (start_num : string) (max_iter : Z)
  : exc exit :=
  let s := zfill start_num 4 in
  if is_repdigit s then Ok RepdigitNone
  else while_loop max_iter s 0.

Definition steps_to_kaprekar (start_num : string) (max_iter : Z)
  : exc (option Z) :=
  e <- steps_to_kaprekar_exit start_num max_iter ;; Ok (returned e).

(** [max_iter=50] *)
Definition default_max_iter : Z := 50.

(** One pass of the [for] loop of [compute_all] over [n], from the
    lists built so far. *)
Definition compute_all_body (acc : list Z * list string) (n : Z)
  : exc (list Z * list string) :=
  let '(counts, failures) := acc in
  let s := zfill (str n) 4 in
  if is_repdigit s then Ok (counts, failures)
  else
    st <- steps_to_kaprekar s default_max_iter ;;
    match st with
    | None => Ok (counts, (failures ++ [s])%list)
    | Some k => Ok ((counts ++ [k])%list, failures)
    end.

Fixpoint for_each {St A : Type} (body : St -> A -> exc St) (l : list A)
  (st : St) : exc St :=
  match l with
  | [] => Ok st
  | x :: r => st' <- body st x ;; for_each body r st'
  end.

Definition compute_all : exc (list Z * list string) :=
  for_each compute_all_body (range 0 10000) ([], []).

(** One pass of the loop of [stats_and_plot] (lines 78-83) that collects
    the numbers taking [mx] steps; [None == mx] is false. *)
Definition nums_with_max_body (mx : Z) (nums_with_max : list string) (n : Z)
  : exc (list string) :=
  let s := zfill (str n) 4 in
  if is_repdigit s then Ok nums_with_max
  else
    st <- steps_to_kaprekar s default_max_iter ;;
    if match st with
       | Some k => k =? mx
       | None => false
       end
    then Ok (nums_with_max ++ [s])%list
    else Ok nums_with_max.

(** The integers [stats_and_plot] prints (lines 67-84): nothing for an
    empty list ("No counts to analyze."), else the number of counts, their
    maximum and the numbers that take it.  The mean, a float, and the
    figure are not part of this. *)
Definition stats_summary (counts : list Z)
  : exc (option (Z * Z * list string)) :=
  match counts with
  | [] => Ok None
  | _ :: _ =>
      mx <- max counts ;;
      nums_with_max <- for_each (nums_with_max_body mx) (range 0 10000) [] ;;
      Ok (Some (Z.of_nat (List.length counts), mx, nums_with_max))
  end.

End KaprekarAll.

(** ** kaprekar.py *)

Module Kaprekar.
Import Py.

(** [kaprekar(num)]: the difference returned and the lines printed.
    Both [int()] calls come before the first [print]. *)
Definition kaprekar (num : string) : exc (Z * list string) :=
  let largest := join (sorted num true) in
  let smallest := join (sorted num false) in
  a <- int largest ;;
  b <- int smallest ;;
  let difference := a - b in
  Ok (difference,
      [ "Largest number: " ++ largest;
        "Smallest number: " ++ smallest;
        "Difference: " ++ str difference;
        "-------------------------" ])%string.

(** The test of line 14; [True] means the input is turned down. *)
Definition invalid (num : string) : bool :=
  negb (len num =? 4) || (len_set num =? 1) || negb (isdigit num).

(** How a run of the program ends, with the lines printed until then.
    [Running] is no end: the loop was cut after the allotted number of
    iterations, in the state it shows. *)
Inductive run : Type :=
| Rejected (out : list string)
| Reached (step : Z) (out : list string)
| Raised (out : list string)
| Running (num : string) (step : Z) (out : list string).

(** The [while num != "6174"] loop with the final [print]; the loop
    has no cap of its own, [fuel] bounds the iterations unrolled. *)
Fixpoint main_loop (fuel : nat) (num : string) (step : Z)
  (out : list string) : run :=
  if negb (num =? "6174")%string then
    match fuel with
    | O => Running num step out
    | S fuel' =>
        let step := step + 1 in
        let out := (out ++ [("Step " ++ str step ++ ":")%string])%list in
        match kaprekar num with
        | ValueError => Raised out
        | Ok (difference, lines) =>
            let num := zfill (str difference) 4 in
            main_loop fuel' num step
              (out ++ lines ++ [("Next number: " ++ num)%string])%list
        end
    end
  else
    Reached step
      (out ++ [("Reached Kaprekar's constant 6174! in " ++ str step
                ++ " steps.")%string])%list.

(** The program on the line [num] read by [input()]. *)
Definition main (fuel : nat) (num : string) : run :=
  if invalid num then
    Rejected [ "Invalid input. Please enter a 4-digit number (digits only) and not all digits the same (e.g., 1111)." ]
  else main_loop fuel num 0 [].

End Kaprekar.

Import Py KaprekarAll Kaprekar.

(** ** Numerals, repdigits, iterates *)

(** A decimal digit character, [0] to [9]. *)
Definition decimal (c : ascii) : Prop := 48 <= code c <= 57.

(** A numeral: exactly 4 decimal digit characters. *)
Definition numeral (s : string) : Prop :=
  String.length s = 4%nat /\ Forall decimal (chars s).

Definition numeralb (s : string) : bool :=
  (String.length s =? 4)%nat
  && forallb (fun c => (48 <=? code c) && (code c <=? 57)) (chars s).

Definition digit_chars : list ascii :=
  ["0"; "1"; "2"; "3"; "4"; "5"; "6"; "7"; "8"; "9"]%char.

(** Every numeral, digit by digit. *)
Definition numerals_by_digit : list string :=
  flat_map (fun a => flat_map (fun b => flat_map (fun c =>
    map (fun d => String a (String b (String c (String d EmptyString))))
      digit_chars) digit_chars) digit_chars) digit_chars.

Definition rendered (l : list Z) : list string :=
  map (fun n => zfill (str n) 4) l.

(** The numerals in the order [compute_all] meets them. *)
Definition all_numerals : list string := rendered (range 0 10000).

Definition repdigits : list string :=
  [ "0000"; "1111"; "2222"; "3333"; "4444";
    "5555"; "6666"; "7777"; "8888"; "9999" ].

(** The numerals [compute_all] does not skip. *)
Definition analysed (l : list string) : list string :=
  filter (fun s => negb (is_repdigit s)) l.

(** What [compute_all] is to return on a list of numerals: the step
    counts of those that reach the constant and the numerals that do not,
    each in the order of the list. *)
Definition counts_of (l : list string) : list Z :=
  flat_map (fun s => match steps_to_kaprekar s default_max_iter with
                     | Ok (Some k) => [k]
                     | _ => []
                     end) l.

Definition failures_of (l : list string) : list string :=
  filter (fun s => match steps_to_kaprekar s default_max_iter with
                   | Ok None => true
                   | _ => false
                   end) l.

(** [iterate s k]: [kaprekar_once] applied [k] times from [s]. *)
Fixpoint iterate (s : string) (k : nat) : exc string :=
  match k with
  | O => Ok s
  | S k' => t <- kaprekar_once s ;; iterate t k'
  end.

(** The states the loop of [steps_to_kaprekar] stops on. *)
Definition stops (t : string) : bool :=
  (t =? KAPREKAR_CONST)%string || (t =? "0000")%string.

(** No iterate before the [k]-th is one the loop stops on. *)
Definition quiet (s : string) (k : nat) : Prop :=
  forall j, (j < k)%nat -> exists t, iterate s j = Ok t /\ stops t = false.

(** The index of the first iterate that is the constant, looking at most
    [fuel] steps ahead and giving up on "0000". *)
Fixpoint first_hit (fuel : nat) (s : string) : option nat :=
  if (s =? KAPREKAR_CONST)%string then Some 0%nat
  else if (s =? "0000")%string then None
  else
    match fuel with
    | O => None
    | S fuel' =>
        match kaprekar_once s with
        | Ok t => option_map S (first_hit fuel' t)
        | ValueError => None
        end
    end.

Definition largest (s : string) : string := join (sorted s true).
Definition smallest (s : string) : string := join (sorted s false).

(** An input of the interactive tool: 1, 2, superscript two (U+00B2), 3. *)
Definition superscript_two : ascii := ascii_of_nat 178.

Definition with_superscript : string :=
  String "1" (String "2" (String superscript_two (String "3" EmptyString))).

(** The Kaprekar step in the words of the specification, on digits. *)
Module Spec.

Definition digits_of (s : string) : list Z :=
  map (fun c => code c - 48) (chars s).

Fixpoint place (le : Z -> Z -> bool) (d : Z) (ds : list Z) : list Z :=
  match ds with
  | [] => [d]
  | e :: r => if le d e then d :: e :: r else e :: place le d r
  end.

Definition descending (ds : list Z) : list Z :=
  fold_right (place Z.geb) [] ds.

Definition ascending (ds : list Z) : list Z :=
  fold_right (place Z.leb) [] ds.

Definition base10 (ds : list Z) : Z :=
  fold_left (fun acc d => 10 * acc + d) ds 0.

Definition digit_char (d : Z) : ascii := ascii_of_N (Z.to_N (48 + d)).

(** A number of [0, 9999] written with exactly 4 digits. *)
Definition padded4 (n : Z) : string :=
  String (digit_char (n / 1000))
    (String (digit_char (n / 100 mod 10))
       (String (digit_char (n / 10 mod 10))
          (String (digit_char (n mod 10)) EmptyString))).

Definition kaprekarStep (s : string) : string :=
  let ds := digits_of s in
  padded4 (base10 (descending ds) - base10 (ascending ds)).

End Spec.

(** ** One check per numeral

    The 54 values the step takes on the numerals that are no repdigits. *)
Definition step_values : list string :=
  [ "0999"; "1089"; "1998"; "2088"; "2178"; "2997"; "3087"; "3177"; "3267";
    "3996"; "4086"; "4176"; "4266"; "4356"; "4995"; "5085"; "5175"; "5265";
    "5355"; "5445"; "5994"; "6084"; "6174"; "6264"; "6354"; "6444"; "6534";
    "6993"; "7083"; "7173"; "7263"; "7353"; "7443"; "7533"; "7623"; "7992";
    "8082"; "8172"; "8262"; "8352"; "8442"; "8532"; "8622"; "8712"; "8991";
    "9081"; "9171"; "9261"; "9351"; "9441"; "9531"; "9621"; "9711"; "9801" ].

Definition is_ok_with {A : Type} (p : A -> bool) (m : exc A) : bool :=
  match m with
  | Ok a => p a
  | ValueError => false
  end.

(** Everything the proofs below need to know about the step on one
    numeral [s], as a test that can be run. *)
Definition audit (s : string) : bool :=
  match int (largest s), int (smallest s) with
  | Ok a, Ok b =>
      let t := zfill (str (a - b)) 4 in
      let ds := Spec.digits_of s in
      (a =? Spec.base10 (Spec.descending ds))
      && (b =? Spec.base10 (Spec.ascending ds))
      && (t =? Spec.padded4 (a - b))%string
      && numeralb t
      && is_ok_with (Z.eqb (a - b)) (int t)
      && (b <=? a) && (a - b <=? 9999)
      && (if is_repdigit s then (t =? "0000")%string
          else negb (is_repdigit t) && (0 <? b)
               && existsb (String.eqb t) step_values)
  | _, _ => false
  end.

(** ** [sorted] returns the characters of its argument, in order *)

Section Sorting.
Variable reverse : bool.

Let le (a b : ascii) : Prop := char_le reverse a b = true.

Lemma char_le_total (a b : ascii) :
  char_le reverse a b = false -> char_le reverse b a = true.
Proof.
  unfold char_le. destruct reverse; intros E.
  - destruct (Ascii.leb_total a b) as [T | T]; congruence.
  - destruct (Ascii.leb_total a b) as [T | T]; congruence.
Qed.

Lemma insert_permutation (c : ascii) (l : list ascii) :
  Permutation (insert (char_le reverse) c l) (c :: l).
Proof.
  induction l as [| d r IH]; simpl; [apply Permutation_refl |].
  destruct (char_le reverse c d); [apply Permutation_refl |].
  apply perm_trans with (d :: c :: r); [now apply perm_skip | apply perm_swap].
Qed.

Lemma insert_hd_rel (a c : ascii) (l : list ascii) :
  le a c -> HdRel le a l -> HdRel le a (insert (char_le reverse) c l).
Proof.
  intros Hac Hl. destruct l as [| d r]; simpl; [now constructor |].
  destruct (char_le reverse c d); constructor; [exact Hac |].
  now inversion Hl.
Qed.

Lemma insert_sorted (c : ascii) (l : list ascii) :
  Sorted le l -> Sorted le (insert (char_le reverse) c l).
Proof.
  induction l as [| d r IH]; intros S; simpl.
  - repeat constructor.
  - inversion S as [| ? ? Sr Hd]; subst.
    destruct (char_le reverse c d) eqn:E.
    + constructor; [exact S | now constructor].
    + constructor; [now apply IH |].
      apply insert_hd_rel; [now apply char_le_total | exact Hd].
Qed.

Lemma sorted_permutation (s : string) :
  Permutation (sorted s reverse) (chars s).
Proof.
  unfold sorted. induction (chars s) as [| c l IH]; simpl; [constructor |].
  apply perm_trans with (c :: fold_right (insert (char_le reverse)) [] l).
  - apply insert_permutation.
  - now apply perm_skip.
Qed.

Lemma sorted_ordered (s : string) : Sorted le (sorted s reverse).
Proof.
  unfold sorted. induction (chars s) as [| c l IH]; simpl.
  - constructor.
  - now apply insert_sorted.
Qed.

End Sorting.

(** [range] counts up from [lo]. *)
Lemma range_from_seq (n : nat) :
  forall lo, range_from lo n = map (fun i => lo + Z.of_nat i) (seq 0 n).
Proof.
  induction n as [| n IH]; intros lo; [reflexivity |].
  cbn [range_from seq map]. f_equal; [lia |].
  rewrite IH, <- seq_shift, map_map. apply map_ext. intros i. lia.
Qed.

(** ** Enumerating the numerals *)

Lemma decimal_in_digit_chars (c : ascii) : decimal c -> In c digit_chars.
Proof.
  unfold decimal, code. intros H.
  rewrite <- (ascii_N_embedding c).
  assert (E : (N_of_ascii c = 48 \/ N_of_ascii c = 49 \/ N_of_ascii c = 50
               \/ N_of_ascii c = 51 \/ N_of_ascii c = 52 \/ N_of_ascii c = 53
               \/ N_of_ascii c = 54 \/ N_of_ascii c = 55 \/ N_of_ascii c = 56
               \/ N_of_ascii c = 57)%N) by lia.
  repeat (destruct E as [E | E]; [rewrite E; simpl; tauto | ]).
  rewrite E; simpl; tauto.
Qed.

Lemma numeral_shape (s : string) :
  numeral s ->
  exists a b c d,
    s = String a (String b (String c (String d EmptyString)))
    /\ decimal a /\ decimal b /\ decimal c /\ decimal d.
Proof.
  intros [L F].
  destruct s as [| a [| b [| c [| d [| e r]]]]]; try discriminate L.
  exists a, b, c, d. unfold chars in F. simpl in F.
  inversion F as [| ? ? Ha F1]; subst. inversion F1 as [| ? ? Hb F2]; subst.
  inversion F2 as [| ? ? Hc F3]; subst. inversion F3 as [| ? ? Hd F4]; subst.
  auto.
Qed.

Lemma numeral_in_by_digit (s : string) : numeral s -> In s numerals_by_digit.
Proof.
  intros H.
  destruct (numeral_shape s H) as (a & b & c & d & -> & Ha & Hb & Hc & Hd).
  unfold numerals_by_digit.
  apply in_flat_map. exists a. split; [now apply decimal_in_digit_chars |].
  apply in_flat_map. exists b. split; [now apply decimal_in_digit_chars |].
  apply in_flat_map. exists c. split; [now apply decimal_in_digit_chars |].
  apply (in_map (fun x => String a (String b (String c (String x EmptyString))))).
  now apply decimal_in_digit_chars.
Qed.

Lemma numeralb_sound (s : string) : numeralb s = true -> numeral s.
Proof.
  unfold numeralb, numeral. intros H. apply andb_prop in H as [L F].
  split; [now apply Nat.eqb_eq |].
  apply Forall_forall. intros c Hc. rewrite forallb_forall in F.
  specialize (F c Hc). unfold decimal. lia.
Qed.

Lemma numeral_zfill (s : string) : numeral s -> zfill s 4 = s.
Proof.
  intros [L _]. unfold zfill, len. rewrite L. reflexivity.
Qed.

Lemma numeral_3524 : numeral "3524".
Proof. apply numeralb_sound. reflexivity. Qed.

(** ** The check holds on every numeral *)

Lemma audit_by_digit : forallb audit numerals_by_digit = true.
Proof. vm_compute. reflexivity. Qed.

Lemma is_ok_with_inv {A : Type} (p : A -> bool) (m : exc A) :
  is_ok_with p m = true -> exists a, m = Ok a /\ p a = true.
Proof.
  destruct m as [a |]; simpl; intros E; [eauto | discriminate].
Qed.

Lemma existsb_eqb_in (t : string) (l : list string) :
  existsb (String.eqb t) l = true -> In t l.
Proof.
  intros E. apply existsb_exists in E as (u & Hu & Eu).
  apply String.eqb_eq in Eu. now subst u.
Qed.

(** What the check says of a numeral [s]: [a] and [b] are the values
    read from the descending and the ascending arrangement, [t] is the
    difference written back. *)
Lemma audit_facts (s : string) :
  numeral s ->
  exists a b t,
    int (largest s) = Ok a /\ int (smallest s) = Ok b
    /\ t = zfill (str (a - b)) 4
    /\ a = Spec.base10 (Spec.descending (Spec.digits_of s))
    /\ b = Spec.base10 (Spec.ascending (Spec.digits_of s))
    /\ t = Spec.kaprekarStep s
    /\ numeral t /\ int t = Ok (a - b) /\ b <= a /\ a - b <= 9999
    /\ (is_repdigit s = true -> t = "0000")
    /\ (is_repdigit s = false ->
        is_repdigit t = false /\ 0 < b /\ In t step_values).
Proof.
  intros H.
  pose proof audit_by_digit as E. rewrite forallb_forall in E.
  specialize (E s (numeral_in_by_digit s H)). unfold audit in E.
  destruct (int (largest s)) as [a |]; [| discriminate].
  destruct (int (smallest s)) as [b |]; [| discriminate].
  cbv zeta in E.
  apply andb_prop in E as [E H8]. apply andb_prop in E as [E H7].
  apply andb_prop in E as [E H6]. apply andb_prop in E as [E H5].
  apply andb_prop in E as [E H4]. apply andb_prop in E as [E H3].
  apply andb_prop in E as [H1 H2].
  apply Z.eqb_eq in H1, H2. apply String.eqb_eq in H3.
  apply numeralb_sound in H4.
  apply is_ok_with_inv in H5 as (v & Ev & Hv). apply Z.eqb_eq in Hv.
  apply Z.leb_le in H6, H7.
  exists a, b, (zfill (str (a - b)) 4).
  split; [reflexivity |]. split; [reflexivity |]. split; [reflexivity |].
  split; [exact H1 |]. split; [exact H2 |].
  split; [rewrite H3; unfold Spec.kaprekarStep; cbv zeta;
          now rewrite <- H1, <- H2 |].
  split; [exact H4 |]. split; [now rewrite Ev, Hv |].
  split; [exact H6 |]. split; [exact H7 |].
  split; intros R; rewrite R in H8.
  - now apply String.eqb_eq in H8.
  - apply andb_prop in H8 as [H8 Hin]. apply andb_prop in H8 as [Hr Hb].
    split; [now apply negb_true_iff |].
    split; [now apply Z.ltb_lt | now apply existsb_eqb_in].
Qed.

(** On a numeral, [kaprekar_once] is the difference of the two values
    read, written back with [str] and [zfill]. *)
Lemma kaprekar_once_eq (s : string) (a b : Z) :
  numeral s -> int (largest s) = Ok a -> int (smallest s) = Ok b ->
  kaprekar_once s = Ok (zfill (str (a - b)) 4).
Proof.
  intros H Ea Eb. unfold kaprekar_once. rewrite (numeral_zfill s H).
  fold (largest s) (smallest s). rewrite Ea, Eb. reflexivity.
Qed.

(** The step maps numerals to numerals. *)
Lemma kaprekar_once_numeral (s : string) :
  numeral s -> exists t, kaprekar_once s = Ok t /\ numeral t.
Proof.
  intros H.
  destruct (audit_facts s H) as (a & b & t & Ea & Eb & Et & _ & _ & _ & Ht & _).
  exists t. split; [subst t; now apply kaprekar_once_eq | exact Ht].
Qed.

(** The step maps numerals that are no repdigits to such numerals. *)
Lemma kaprekar_once_keeps_non_repdigit (s : string) :
  numeral s -> is_repdigit s = false ->
  exists t, kaprekar_once s = Ok t /\ numeral t /\ is_repdigit t = false
            /\ In t step_values.
Proof.
  intros H R.
  destruct (audit_facts s H)
    as (a & b & t & Ea & Eb & Et & _ & _ & _ & Ht & _ & _ & _ & _ & N).
  destruct (N R) as (Rt & _ & Hin).
  exists t. split; [subst t; now apply kaprekar_once_eq | auto].
Qed.

(** The step maps every repdigit to "0000". *)
Lemma repdigit_collapses (s : string) :
  numeral s -> is_repdigit s = true -> kaprekar_once s = Ok "0000".
Proof.
  intros H R.
  destruct (audit_facts s H)
    as (a & b & t & Ea & Eb & Et & _ & _ & _ & _ & _ & _ & _ & Z0 & _).
  rewrite <- (Z0 R). subst t. now apply kaprekar_once_eq.
Qed.

(** ** The Kaprekar step *)

(** C1: on every 4-digit numeral [kaprekar_once] returns what the
    specification describes: the digits sorted descending and ascending,
    both read in base 10, the ascending value subtracted from the
    descending one, the difference written with exactly 4 digits; the
    interactive tool's [kaprekar] followed by [str(..).zfill(4)] gives the
    same numeral.  On "3524": largest "5432", smallest "2345", difference
    3087, result "3087". *)
Theorem kaprekar_once_by_digits (s : string) (H : numeral s) :
  kaprekar_once s = Ok (Spec.kaprekarStep s)
  /\ int (largest s) = Ok (Spec.base10 (Spec.descending (Spec.digits_of s)))
  /\ int (smallest s) = Ok (Spec.base10 (Spec.ascending (Spec.digits_of s)))
  /\ (exists d out,
        kaprekar s = Ok (d, out) /\ zfill (str d) 4 = Spec.kaprekarStep s)
  /\ (s = "3524" ->
      largest s = "5432" /\ smallest s = "2345"
      /\ kaprekar s
         = Ok (3087, [ "Largest number: 5432"; "Smallest number: 2345";
                       "Difference: 3087"; "-------------------------" ])
      /\ kaprekar_once s = Ok "3087").
Proof.
  destruct (audit_facts s H)
    as (a & b & t & Ea & Eb & Et & Sa & Sb & St & _).
  split; [rewrite <- St; subst t; now apply kaprekar_once_eq |].
  split; [now rewrite Ea, Sa |]. split; [now rewrite Eb, Sb |].
  split.
  - unfold kaprekar. fold (largest s) (smallest s). rewrite Ea, Eb.
    cbn [bind]. eexists. eexists. split; [reflexivity |].
    now rewrite <- St, Et.
  - intros ->. repeat split; vm_compute; reflexivity.
Qed.

Lemma kaprekar_once_by_digits_witness :
  numeral "3524" /\ kaprekar_once "3524" = Ok "3087".
Proof.
  split; [exact numeral_3524 |].
  exact (proj2 (proj2 (proj2 (proj2 (proj2 (proj2 (proj2
    (kaprekar_once_by_digits "3524" numeral_3524)))) eq_refl)))).
Defined.

(** C5: "6174" is a fixed point of the step. *)
Theorem kaprekar_const_fixed : kaprekar_once KAPREKAR_CONST = Ok KAPREKAR_CONST.
Proof. vm_compute. reflexivity. Qed.

(** C6: on every 4-digit numeral the step returns a numeral of exactly 4
    decimal digits whose value lies in [0, 9999]; the descending value is
    at least the ascending one, so the difference is never negative. *)
Theorem kaprekar_once_in_range (s : string) (H : numeral s) :
  exists t a b,
    kaprekar_once s = Ok t /\ numeral t
    /\ int (largest s) = Ok a /\ int (smallest s) = Ok b /\ b <= a
    /\ int t = Ok (a - b) /\ 0 <= a - b <= 9999.
Proof.
  destruct (audit_facts s H)
    as (a & b & t & Ea & Eb & Et & _ & _ & _ & Ht & Ev & Hle & Hmax & _).
  exists t, a, b.
  split; [subst t; now apply kaprekar_once_eq |].
  repeat split; auto; try apply Ht; lia.
Qed.

Lemma kaprekar_once_in_range_witness :
  numeral "3524" /\
  exists t a b,
    kaprekar_once "3524" = Ok t /\ numeral t
    /\ int (largest "3524") = Ok a /\ int (smallest "3524") = Ok b /\ b <= a
    /\ int t = Ok (a - b) /\ 0 <= a - b <= 9999.
Proof.
  split; [exact numeral_3524 |].
  exact (kaprekar_once_in_range "3524" numeral_3524).
Defined.

(** C8: for a numeral that is no repdigit, the value of the step's result
    is strictly below the value of the descending digit permutation. *)
Theorem kaprekar_once_below_largest (s : string)
  (H : numeral s) (R : is_repdigit s = false) :
  exists t v a,
    kaprekar_once s = Ok t /\ int t = Ok v /\ int (largest s) = Ok a /\ v < a.
Proof.
  destruct (audit_facts s H)
    as (a & b & t & Ea & Eb & Et & _ & _ & _ & _ & Ev & _ & _ & _ & N).
  destruct (N R) as (_ & Hb & _).
  exists t, (a - b), a.
  split; [subst t; now apply kaprekar_once_eq |].
  repeat split; auto. lia.
Qed.

Lemma kaprekar_once_below_largest_witness :
  numeral "3524" /\ is_repdigit "3524" = false /\
  exists t v a,
    kaprekar_once "3524" = Ok t /\ int t = Ok v
    /\ int (largest "3524") = Ok a /\ v < a.
Proof.
  split; [exact numeral_3524 |]. split; [reflexivity |].
  exact (kaprekar_once_below_largest "3524" numeral_3524 eq_refl).
Defined.

(** ** The step counter *)

Lemma while_loop_unfold (max_iter : Z) (s : string) (steps : Z) :
  while_loop max_iter s steps =
  if negb (s =? KAPREKAR_CONST)%string && (steps <? max_iter) then
    match kaprekar_once s with
    | ValueError => ValueError
    | Ok s' =>
        if (s' =? "0000")%string then Ok ZeroNone
        else while_loop max_iter s' (steps + 1)
    end
  else if (s =? KAPREKAR_CONST)%string then Ok (Steps steps)
  else Ok CapNone.
Proof.
  funelim (while_loop max_iter s steps).
  - rewrite e. reflexivity.
  - rewrite e, Heq. reflexivity.
  - rewrite e, Heq. reflexivity.
Qed.

Lemma quiet_step (s s1 : string) (k : nat) :
  kaprekar_once s = Ok s1 -> quiet s (S k) -> quiet s1 k.
Proof.
  intros E Q j Hj. destruct (Q (S j)) as (t & Et & Ht); [lia |].
  simpl in Et. rewrite E in Et. simpl in Et. eauto.
Qed.

Lemma stops_false (t : string) :
  stops t = false ->
  (t =? KAPREKAR_CONST)%string = false /\ (t =? "0000")%string = false.
Proof. unfold stops. intros E. now apply orb_false_iff in E. Qed.

(** [k] quiet iterations within the cap take the loop from [s] to the
    [k]-th iterate, where the test on "0000" has just been made. *)
Lemma while_loop_iterate (k : nat) :
  forall (max_iter : Z) (s : string) (steps : Z) (t : string),
    iterate s (S k) = Ok t -> quiet s (S k) ->
    steps + Z.of_nat (S k) <= max_iter ->
    while_loop max_iter s steps =
    if (t =? "0000")%string then Ok ZeroNone
    else while_loop max_iter t (steps + Z.of_nat (S k)).
Proof.
  induction k as [| k IH]; intros max_iter s steps t It Q Hcap.
  - destruct (Q 0%nat) as (u & Eu & Hu); [lia |].
    simpl in Eu. injection Eu as <-. apply stops_false in Hu as [Hc _].
    rewrite while_loop_unfold, Hc.
    replace (steps <? max_iter) with true by (symmetry; apply Z.ltb_lt; lia).
    simpl in It |- *. destruct (kaprekar_once s) as [s1 |]; [| discriminate].
    simpl in It. injection It as ->. reflexivity.
  - destruct (Q 0%nat) as (u & Eu & Hu); [lia |].
    simpl in Eu. injection Eu as <-. apply stops_false in Hu as [Hc _].
    rewrite while_loop_unfold, Hc.
    replace (steps <? max_iter) with true by (symmetry; apply Z.ltb_lt; lia).
    cbn [negb andb].
    destruct (kaprekar_once s) as [s1 |] eqn:E1;
      [| simpl in It; rewrite E1 in It; discriminate].
    destruct (Q 1%nat) as (u & Eu & Hu); [lia |].
    simpl in Eu. rewrite E1 in Eu. simpl in Eu. injection Eu as <-.
    apply stops_false in Hu as [_ Hz]. rewrite Hz.
    rewrite (IH max_iter s1 (steps + 1) t).
    + replace (steps + 1 + Z.of_nat (S k)) with (steps + Z.of_nat (S (S k)))
        by lia.
      reflexivity.
    + change (iterate s (S (S k))) with (t' <- kaprekar_once s ;; iterate t' (S k)) in It.
      rewrite E1 in It. exact It.
    + now apply (quiet_step s).
    + lia.
Qed.

Lemma non_repdigit_not_zero (t : string) :
  is_repdigit t = false -> (t =? "0000")%string = false.
Proof.
  intros R. destruct (String.eqb_spec t "0000") as [-> |]; [| reflexivity].
  discriminate R.
Qed.

(** From a numeral that is no repdigit the loop never raises, and it
    leaves through one of the two statements that follow it. *)
Lemma while_loop_returns (n : nat) :
  forall (max_iter : Z) (s : string) (steps : Z),
    (Z.to_nat (max_iter - steps) <= n)%nat ->
    numeral s -> is_repdigit s = false ->
    exists e, while_loop max_iter s steps = Ok e
              /\ (e = CapNone \/ exists k, e = Steps k).
Proof.
  induction n as [| n IH]; intros max_iter s steps Hn Hs Rs;
    rewrite while_loop_unfold.
  - replace (steps <? max_iter) with false by (symmetry; apply Z.ltb_ge; lia).
    rewrite andb_false_r. destruct (s =? KAPREKAR_CONST)%string; eauto.
  - destruct (negb (s =? KAPREKAR_CONST)%string && (steps <? max_iter)) eqn:G.
    + apply andb_prop in G as [_ G]. apply Z.ltb_lt in G.
      destruct (kaprekar_once_keeps_non_repdigit s Hs Rs)
        as (t & -> & Ht & Rt & _).
      rewrite (non_repdigit_not_zero t Rt).
      apply IH; [lia | exact Ht | exact Rt].
    + destruct (s =? KAPREKAR_CONST)%string; eauto.
Qed.

(** On a numeral [steps_to_kaprekar] never raises, whatever the cap. *)
Lemma steps_to_kaprekar_exit_returns (s : string) (max_iter : Z) :
  numeral s ->
  exists e, steps_to_kaprekar_exit s max_iter = Ok e
            /\ steps_to_kaprekar s max_iter = Ok (returned e)
            /\ e <> ZeroNone.
Proof.
  intros H. unfold steps_to_kaprekar, steps_to_kaprekar_exit.
  rewrite (numeral_zfill s H).
  destruct (is_repdigit s) eqn:R.
  - exists RepdigitNone. repeat split. discriminate.
  - destruct (while_loop_returns (Z.to_nat (max_iter - 0)) max_iter s 0)
      as (e & -> & He); [lia | exact H | exact R |].
    exists e. repeat split.
    destruct He as [-> | (k & ->)]; discriminate.
Qed.

(** The loop from [steps = 0], by the first iterate it stops on: this
    holds of every string, numeral or not. *)
Lemma while_loop_cases (s : string) (max_iter : Z) (k : nat) :
  quiet s k ->
  (iterate s k = Ok KAPREKAR_CONST ->
   k = 0%nat \/ Z.of_nat k <= max_iter ->
   while_loop max_iter s 0 = Ok (Steps (Z.of_nat k)))
  /\ (iterate s k = Ok "0000" ->
      (1 <= k)%nat -> Z.of_nat k <= max_iter ->
      while_loop max_iter s 0 = Ok ZeroNone)
  /\ (quiet s (S k) -> k = Z.to_nat max_iter ->
      while_loop max_iter s 0 = Ok CapNone).
Proof.
  intros Q. split; [| split].
  - intros It Hk. destruct k as [| k].
    + simpl in It. injection It as ->.
      rewrite while_loop_unfold. reflexivity.
    + destruct Hk as [Hk | Hk]; [discriminate |].
      rewrite (while_loop_iterate k max_iter s 0 KAPREKAR_CONST It Q) by lia.
      cbn [String.eqb KAPREKAR_CONST Ascii.eqb Bool.eqb].
      rewrite while_loop_unfold. reflexivity.
  - intros It H1 Hk. destruct k as [| k]; [lia |].
    rewrite (while_loop_iterate k max_iter s 0 "0000" It Q) by lia.
    reflexivity.
  - intros Q' Hk. destruct (Q' k) as (t & Et & Ht); [lia |].
    apply stops_false in Ht as [Hc Hz].
    destruct k as [| k].
    + simpl in Et. injection Et as <-.
      rewrite while_loop_unfold, Hc.
      replace (0 <? max_iter) with false by (symmetry; apply Z.ltb_ge; lia).
      reflexivity.
    + rewrite (while_loop_iterate k max_iter s 0 t Et Q) by lia.
      rewrite Hz, while_loop_unfold, Hc.
      replace (0 + Z.of_nat (S k) <? max_iter) with false
        by (symmetry; apply Z.ltb_ge; lia).
      reflexivity.
Qed.

(** The test on "0000" is live code: it fires on the 5-character start
    "10000", which steps to "9999" and then to "0000". *)
Example zero_test_fires_outside_numerals :
  iterate "10000" 2 = Ok "0000"
  /\ steps_to_kaprekar_exit "10000" default_max_iter = Ok ZeroNone.
Proof. split; vm_compute; reflexivity. Qed.

(** C2: on a 4-digit numeral and with any cap, [steps_to_kaprekar]
    returns; on a repdigit it returns [None] at once and never a step
    count; otherwise it applies the step while counting, and returns the
    count [k] when the [k]-th iterate is the first to be "6174" (within
    the cap), [None] when it is "0000", and [None] when the count reaches
    the cap with neither met. *)
Theorem steps_to_kaprekar_cases (s : string) (max_iter : Z) (H : numeral s) :
  (exists e, steps_to_kaprekar_exit s max_iter = Ok e
             /\ steps_to_kaprekar s max_iter = Ok (returned e))
  /\ (is_repdigit s = true ->
      steps_to_kaprekar_exit s max_iter = Ok RepdigitNone
      /\ steps_to_kaprekar s max_iter = Ok None
      /\ forall n, steps_to_kaprekar s max_iter <> Ok (Some n))
  /\ (is_repdigit s = false ->
      forall k : nat,
        quiet s k ->
        (iterate s k = Ok KAPREKAR_CONST ->
         k = 0%nat \/ Z.of_nat k <= max_iter ->
         steps_to_kaprekar_exit s max_iter = Ok (Steps (Z.of_nat k))
         /\ steps_to_kaprekar s max_iter = Ok (Some (Z.of_nat k)))
        /\ (iterate s k = Ok "0000" ->
            (1 <= k)%nat -> Z.of_nat k <= max_iter ->
            steps_to_kaprekar_exit s max_iter = Ok ZeroNone
            /\ steps_to_kaprekar s max_iter = Ok None)
        /\ (quiet s (S k) -> k = Z.to_nat max_iter ->
            steps_to_kaprekar_exit s max_iter = Ok CapNone
            /\ steps_to_kaprekar s max_iter = Ok None)).
Proof.
  assert (Z4 : zfill s 4 = s) by now apply numeral_zfill.
  assert (U : forall e, steps_to_kaprekar_exit s max_iter = Ok e ->
                        steps_to_kaprekar_exit s max_iter = Ok e
                        /\ steps_to_kaprekar s max_iter = Ok (returned e)).
  { intros e E. split; [exact E |]. unfold steps_to_kaprekar. now rewrite E. }
  split; [| split].
  - destruct (steps_to_kaprekar_exit_returns s max_iter H) as (e & E & _).
    exists e. now apply U.
  - intros R.
    assert (E : steps_to_kaprekar_exit s max_iter = Ok RepdigitNone).
    { unfold steps_to_kaprekar_exit. rewrite Z4, R. reflexivity. }
    destruct (U _ E) as [_ E']. rewrite E'.
    split; [exact E |]. split; [reflexivity | discriminate].
  - intros R k Q.
    assert (L : steps_to_kaprekar_exit s max_iter = while_loop max_iter s 0).
    { unfold steps_to_kaprekar_exit. rewrite Z4, R. reflexivity. }
    destruct (while_loop_cases s max_iter k Q) as (A & B & C).
    rewrite <- L in A, B, C.
    split; [| split].
    + intros It Hk. exact (U _ (A It Hk)).
    + intros It H1 Hk. exact (U _ (B It H1 Hk)).
    + intros Q' Hk. exact (U _ (C Q' Hk)).
Qed.

Lemma steps_to_kaprekar_cases_witness :
  numeral "3524" /\ steps_to_kaprekar "3524" 50 = Ok (Some 3).
Proof.
  split; [exact numeral_3524 |].
  destruct (steps_to_kaprekar_cases "3524" 50 numeral_3524) as (_ & _ & C).
  assert (Q : quiet "3524" 3).
  { intros j Hj.
    destruct j as [| [| [| j]]]; [| | | lia]; eexists; split; reflexivity. }
  destruct (C eq_refl 3%nat Q) as (A & _).
  apply A; [reflexivity | right; lia].
Defined.


(** C3: with the default cap, "3524" takes 3 steps, "2111" takes 5 and
    "8532" takes 1. *)
Theorem steps_to_kaprekar_fixtures :
  steps_to_kaprekar "3524" default_max_iter = Ok (Some 3)
  /\ steps_to_kaprekar "2111" default_max_iter = Ok (Some 5)
  /\ steps_to_kaprekar "8532" default_max_iter = Ok (Some 1).
Proof. repeat split; vm_compute; reflexivity. Qed.


(** ** Iterating the step *)

(** Numerals that are no repdigits are closed under iteration. *)
Lemma iterate_keeps_non_repdigit (k : nat) :
  forall s, numeral s -> is_repdigit s = false ->
  exists t, iterate s k = Ok t /\ numeral t /\ is_repdigit t = false.
Proof.
  induction k as [| k IH]; intros s H R.
  - exists s. simpl. auto.
  - destruct (kaprekar_once_keeps_non_repdigit s H R)
      as (t & Et & Ht & Rt & _).
    destruct (IH t Ht Rt) as (u & Eu & Hu & Ru).
    exists u. simpl. rewrite Et. simpl. auto.
Qed.

Lemma first_hit_sound (fuel : nat) :
  forall s k, first_hit fuel s = Some k ->
  iterate s k = Ok KAPREKAR_CONST /\ quiet s k /\ (k <= fuel)%nat.
Proof.
  induction fuel as [| fuel IH]; intros s k E; cbn [first_hit] in E;
    destruct (s =? KAPREKAR_CONST)%string eqn:C.
  - injection E as <-. apply String.eqb_eq in C. subst s.
    split; [reflexivity |]. split; [intros j Hj; lia | lia].
  - destruct (s =? "0000")%string; discriminate E.
  - injection E as <-. apply String.eqb_eq in C. subst s.
    split; [reflexivity |]. split; [intros j Hj; lia | lia].
  - destruct (s =? "0000")%string eqn:Z0; [discriminate E |].
    destruct (kaprekar_once s) as [t |] eqn:K; [| discriminate E].
    destruct (first_hit fuel t) as [k' |] eqn:F; [| discriminate E].
    injection E as <-. destruct (IH t k' F) as (It & Q & Hk).
    split; [simpl; rewrite K; exact It |]. split; [| lia].
    intros [| j] Hj.
    + exists s. split; [reflexivity |]. unfold stops. now rewrite C, Z0.
    + destruct (Q j) as (u & Eu & Hu); [lia |].
      exists u. split; [simpl; rewrite K; exact Eu | exact Hu].
Qed.

Lemma step_values_hit :
  forallb (fun t => match first_hit 6 t with
                    | Some _ => true
                    | None => false
                    end) step_values = true.
Proof. vm_compute. reflexivity. Qed.

(** From a numeral that is no repdigit, the constant is first met after
    at most 7 steps, and "0000" is not met before. *)
Lemma converges (s : string) :
  numeral s -> is_repdigit s = false ->
  exists k, (k <= 7)%nat /\ iterate s k = Ok KAPREKAR_CONST /\ quiet s k.
Proof.
  intros H R. destruct (s =? KAPREKAR_CONST)%string eqn:C.
  - apply String.eqb_eq in C. subst s. exists 0%nat.
    split; [lia |]. split; [reflexivity | intros j Hj; lia].
  - destruct (kaprekar_once_keeps_non_repdigit s H R)
      as (t & Et & Ht & Rt & Hin).
    pose proof step_values_hit as V. rewrite forallb_forall in V.
    specialize (V t Hin).
    destruct (first_hit 6 t) as [k |] eqn:F; [| discriminate V].
    destruct (first_hit_sound 6 t k F) as (It & Q & Hk).
    exists (S k). split; [lia |]. split; [simpl; rewrite Et; exact It |].
    intros [| j] Hj.
    + exists s. split; [reflexivity |].
      unfold stops. now rewrite C, (non_repdigit_not_zero s R).
    + destruct (Q j) as (u & Eu & Hu); [lia |].
      exists u. split; [simpl; rewrite Et; exact Eu | exact Hu].
Qed.

(** With the default cap every numeral that is no repdigit gets a step
    count, at most 7. *)
Lemma steps_to_kaprekar_on_non_repdigit (s : string) :
  numeral s -> is_repdigit s = false ->
  exists k, 0 <= k <= 7
            /\ steps_to_kaprekar s default_max_iter = Ok (Some k).
Proof.
  intros H R. destruct (converges s H R) as (k & Hk & It & Q).
  exists (Z.of_nat k). split; [lia |].
  unfold steps_to_kaprekar, steps_to_kaprekar_exit.
  rewrite (numeral_zfill s H), R.
  destruct (while_loop_cases s default_max_iter k Q) as (A & _).
  rewrite (A It); [reflexivity |]. right. unfold default_max_iter. lia.
Qed.

(** C7, as stated, does not hold: no iterate of the step from a numeral
    that is no repdigit is "0000". *)
Lemma zero_not_reached_from_non_repdigit :
  ~ exists (s : string) (k : nat),
      numeral s /\ is_repdigit s = false /\ iterate s k = Ok "0000".
Proof.
  intros (s & k & H & R & E).
  destruct (iterate_keeps_non_repdigit k s H R) as (t & Et & _ & Rt).
  rewrite E in Et. injection Et as <-. discriminate Rt.
Qed.

(** C7, amended: among the 4-digit numerals, some iterate of the step is
    "0000" exactly for the repdigits, and the "0000" test of
    [steps_to_kaprekar] fires on no numeral, whatever the cap. *)
Theorem zero_reached_only_from_repdigits (s : string) (H : numeral s) :
  ((exists k, iterate s k = Ok "0000") <-> is_repdigit s = true)
  /\ (forall max_iter, steps_to_kaprekar_exit s max_iter <> Ok ZeroNone).
Proof.
  split.
  - split.
    + intros (k & E). destruct (is_repdigit s) eqn:R; [reflexivity |].
      destruct (iterate_keeps_non_repdigit k s H R) as (t & Et & _ & Rt).
      rewrite E in Et. injection Et as <-. discriminate Rt.
    + intros R. exists 1%nat. simpl.
      rewrite (repdigit_collapses s H R). reflexivity.
  - intros max_iter E.
    destruct (steps_to_kaprekar_exit_returns s max_iter H) as (e & Ee & _ & Ne).
    rewrite E in Ee. injection Ee as <-. now apply Ne.
Qed.

Lemma zero_reached_only_from_repdigits_witness :
  numeral "3524" /\ steps_to_kaprekar_exit "3524" 50 <> Ok ZeroNone.
Proof.
  split; [exact numeral_3524 |].
  exact (proj2 (zero_reached_only_from_repdigits "3524" numeral_3524) 50).
Defined.

(** ** The batch driver *)

Lemma range_from_length (n : nat) (lo : Z) : List.length (range_from lo n) = n.
Proof. now rewrite range_from_seq, length_map, length_seq. Qed.

Lemma all_numerals_are_numerals : Forall numeral all_numerals.
Proof.
  apply Forall_forall. intros s Hs. apply numeralb_sound.
  assert (E : forallb numeralb all_numerals = true) by (vm_compute; reflexivity).
  rewrite forallb_forall in E. now apply E.
Qed.

Lemma all_numerals_repdigits : filter is_repdigit all_numerals = repdigits.
Proof. vm_compute. reflexivity. Qed.

Lemma analysed_numerals (l : list string) :
  Forall numeral l ->
  Forall (fun s => numeral s /\ is_repdigit s = false) (analysed l).
Proof.
  intros F. apply Forall_forall. intros s Hs.
  apply filter_In in Hs as [Hs R]. rewrite Forall_forall in F.
  split; [now apply F | now apply negb_true_iff].
Qed.

(** The [for] loop appends, pass by pass, what [counts_of] and
    [failures_of] collect on the numerals that are no repdigits. *)
Lemma for_each_compute_all (l : list Z) :
  forall counts failures,
    Forall numeral (rendered l) ->
    for_each compute_all_body l (counts, failures)
    = Ok ((counts ++ counts_of (analysed (rendered l)))%list,
          (failures ++ failures_of (analysed (rendered l)))%list).
Proof.
  induction l as [| n l IH]; intros counts failures F.
  - simpl. now rewrite !app_nil_r.
  - simpl in F. inversion F as [| ? ? Hn Fl]; subst.
    cbn [for_each compute_all_body rendered map analysed filter].
    destruct (is_repdigit (zfill (str n) 4)) eqn:R; cbn [negb bind].
    + now apply IH.
    + destruct (steps_to_kaprekar_exit_returns _ default_max_iter Hn)
        as (e & _ & E & _).
      cbn [counts_of failures_of flat_map filter]. rewrite E.
      cbn [bind]. destruct (returned e) as [k |]; cbn [bind].
      * rewrite (IH _ _ Fl). unfold counts_of, failures_of, analysed, rendered.
        now rewrite <- app_assoc.
      * rewrite (IH _ _ Fl). unfold counts_of, failures_of, analysed, rendered.
        now rewrite <- app_assoc.
Qed.

Lemma compute_all_value :
  compute_all = Ok (counts_of (analysed all_numerals),
                    failures_of (analysed all_numerals)).
Proof.
  unfold compute_all.
  rewrite (for_each_compute_all (range 0 10000) [] []).
  - reflexivity.
  - exact all_numerals_are_numerals.
Qed.

(** Every numeral analysed lands in exactly one of the two lists. *)
Lemma counts_failures_length (l : list string) :
  Forall numeral l ->
  (List.length (counts_of l) + List.length (failures_of l))%nat
  = List.length l.
Proof.
  induction l as [| s l IH]; intros F; [reflexivity |].
  inversion F as [| ? ? Hs Fl]; subst.
  destruct (steps_to_kaprekar_exit_returns s default_max_iter Hs)
    as (e & _ & E & _).
  unfold counts_of, failures_of in *. cbn [flat_map filter]. rewrite E.
  specialize (IH Fl).
  destruct (returned e); rewrite ?length_app; simpl; lia.
Qed.

(** No numeral that is no repdigit fails. *)
Lemma failures_of_non_repdigits (l : list string) :
  Forall (fun s => numeral s /\ is_repdigit s = false) l ->
  failures_of l = [].
Proof.
  induction l as [| s l IH]; intros F; [reflexivity |].
  inversion F as [| ? ? [Hs Rs] Fl]; subst.
  destruct (steps_to_kaprekar_on_non_repdigit s Hs Rs) as (k & _ & E).
  unfold failures_of in *. cbn [filter]. rewrite E. now apply IH.
Qed.

Lemma analysed_length :
  Z.of_nat (List.length (analysed all_numerals)) = 10000 - 10.
Proof.
  pose proof (filter_length is_repdigit all_numerals) as L.
  rewrite all_numerals_repdigits in L.
  unfold all_numerals at 2, rendered, range in L.
  rewrite length_map, range_from_length in L.
  unfold analysed. change (List.length repdigits) with 10%nat in L. lia.
Qed.

(** C4: [compute_all] goes through 0..9999 in ascending order, leaves out
    exactly the 10 repdigits, puts every other numeral either in the list
    of step counts or in the list of failures, both in the order of the
    enumeration, and the lengths of the two lists add up to 10000 - 10. *)
Theorem compute_all_partition :
  exists counts failures,
    compute_all = Ok (counts, failures)
    /\ range 0 10000 = map Z.of_nat (seq 0 (Z.to_nat 10000))
    /\ filter is_repdigit all_numerals = repdigits
    /\ counts = counts_of (analysed all_numerals)
    /\ failures = failures_of (analysed all_numerals)
    /\ (forall s, In s (analysed all_numerals) ->
          (exists k, steps_to_kaprekar s default_max_iter = Ok (Some k))
          \/ steps_to_kaprekar s default_max_iter = Ok None)
    /\ Z.of_nat (List.length counts) + Z.of_nat (List.length failures)
       = 10000 - 10.
Proof.
  exists (counts_of (analysed all_numerals)),
         (failures_of (analysed all_numerals)).
  split; [exact compute_all_value |].
  split; [unfold range; rewrite range_from_seq; apply map_ext; intros; lia |].
  split; [exact all_numerals_repdigits |].
  split; [reflexivity |]. split; [reflexivity |].
  pose proof (analysed_numerals _ all_numerals_are_numerals) as F.
  split.
  - intros s Hs. rewrite Forall_forall in F. destruct (F s Hs) as [Hn _].
    destruct (steps_to_kaprekar_exit_returns s default_max_iter Hn)
      as (e & _ & E & _).
    rewrite E. destruct (returned e); eauto.
  - rewrite <- Nat2Z.inj_add, counts_failures_length.
    + exact analysed_length.
    + apply Forall_forall. intros s Hs. rewrite Forall_forall in F.
      now destruct (F s Hs).
Qed.

(** C9: a numeral that is no repdigit steps to a numeral that is no
    repdigit, in particular not to "0000"; so from such a start every
    iterate is such a numeral, [steps_to_kaprekar] never leaves through
    its test on "0000", and [compute_all] returns no failure. *)
Theorem non_repdigit_is_invariant (s : string)
  (H : numeral s) (R : is_repdigit s = false) :
  (exists t, kaprekar_once s = Ok t
             /\ numeral t /\ is_repdigit t = false /\ t <> "0000")
  /\ (forall k, exists t, iterate s k = Ok t
                          /\ numeral t /\ is_repdigit t = false
                          /\ t <> "0000")
  /\ (forall max_iter, exists e,
        steps_to_kaprekar_exit s max_iter = Ok e
        /\ (e = CapNone \/ exists n, e = Steps n))
  /\ (exists counts, compute_all = Ok (counts, [])).
Proof.
  assert (N : forall t, is_repdigit t = false -> t <> "0000").
  { intros t Rt ->. discriminate Rt. }
  split; [| split; [| split]].
  - destruct (kaprekar_once_keeps_non_repdigit s H R)
      as (t & Et & Ht & Rt & _).
    exists t. auto.
  - intros k.
    destruct (iterate_keeps_non_repdigit k s H R) as (t & Et & Ht & Rt).
    exists t. auto.
  - intros max_iter. unfold steps_to_kaprekar_exit.
    rewrite (numeral_zfill s H), R.
    apply (while_loop_returns (Z.to_nat (max_iter - 0))); auto.
  - exists (counts_of (analysed all_numerals)).
    rewrite compute_all_value, failures_of_non_repdigits; [reflexivity |].
    exact (analysed_numerals _ all_numerals_are_numerals).
Qed.

Lemma non_repdigit_is_invariant_witness :
  numeral "3524" /\ is_repdigit "3524" = false
  /\ exists t, kaprekar_once "3524" = Ok t
               /\ numeral t /\ is_repdigit t = false /\ t <> "0000".
Proof.
  split; [exact numeral_3524 |]. split; [reflexivity |].
  exact (proj1 (non_repdigit_is_invariant "3524" numeral_3524 eq_refl)).
Defined.

(** ** The interactive tool *)

(** On a numeral, [kaprekar] returns the difference that [kaprekar_once]
    writes back. *)
Lemma kaprekar_numeral (s : string) :
  numeral s ->
  exists d lines t,
    kaprekar s = Ok (d, lines) /\ zfill (str d) 4 = t
    /\ kaprekar_once s = Ok t /\ numeral t.
Proof.
  intros H.
  destruct (audit_facts s H) as (a & b & t & Ea & Eb & Et & _ & _ & _ & Ht & _).
  unfold kaprekar. fold (largest s) (smallest s). rewrite Ea, Eb. cbn [bind].
  eexists. eexists. exists t. split; [reflexivity |].
  split; [now subst t |]. split; [subst t; now apply kaprekar_once_eq | exact Ht].
Qed.

(** The loop of the tool follows the iterates of [kaprekar_once]: when
    the [k]-th is the first to be the constant, [k] iterations end it. *)
Lemma main_loop_hits (k : nat) :
  forall s step out fuel,
    numeral s -> iterate s k = Ok KAPREKAR_CONST -> quiet s k ->
    (k <= fuel)%nat ->
    exists out', main_loop fuel s step out = Reached (step + Z.of_nat k) out'.
Proof.
  induction k as [| k IH]; intros s step out fuel H It Q Hf.
  - simpl in It. injection It as ->.
    rewrite Z.add_0_r. destruct fuel; eexists; reflexivity.
  - destruct fuel as [| fuel]; [lia |].
    destruct (Q 0%nat) as (u & Eu & Hu); [lia |].
    simpl in Eu. injection Eu as <-. apply stops_false in Hu as [Hc _].
    destruct (kaprekar_numeral s H) as (d & lines & t & Ek & Ed & Et & Ht).
    cbn [main_loop]. change "6174" with KAPREKAR_CONST.
    rewrite Hc, Ek. cbn [negb]. rewrite Ed.
    destruct (IH t (step + 1)
                (out ++ [("Step " ++ str (step + 1) ++ ":")%string]
                     ++ lines ++ [("Next number: " ++ t)%string])%list fuel)
      as (out' & E).
    + exact Ht.
    + simpl in It. rewrite Et in It. exact It.
    + now apply (quiet_step s).
    + lia.
    + exists out'. rewrite <- app_assoc.
      replace (step + Z.of_nat (S k)) with (step + 1 + Z.of_nat k) by lia.
      exact E.
Qed.

Lemma numeral_isdigit (s : string) : numeral s -> isdigit s = true.
Proof.
  intros [L F]. unfold isdigit, len. rewrite L. cbn [Z.of_nat Z.eqb negb andb].
  apply forallb_forall. intros c Hc. rewrite Forall_forall in F.
  specialize (F c Hc). unfold decimal in F. unfold isdigit_char.
  replace (48 <=? code c) with true by (symmetry; apply Z.leb_le; lia).
  replace (code c <=? 57) with true by (symmetry; apply Z.leb_le; lia).
  reflexivity.
Qed.

(** On the inputs made of four of the characters [0]-[9], not all equal,
    the tool accepts the input and its loop reaches "6174" after at most
    7 steps. *)
Lemma main_reaches_const_on_numerals (s : string) :
  numeral s -> is_repdigit s = false ->
  invalid s = false
  /\ exists step,
       0 <= step <= 7
       /\ forall fuel, (7 <= fuel)%nat ->
                       exists out, main fuel s = Reached step out.
Proof.
  intros H R.
  assert (V : invalid s = false).
  { unfold invalid. rewrite (numeral_isdigit s H).
    unfold is_repdigit in R. rewrite (numeral_zfill s H) in R. rewrite R.
    destruct H as [L _]. unfold len. rewrite L. reflexivity. }
  split; [exact V |].
  destruct (converges s H R) as (k & Hk & It & Q).
  exists (Z.of_nat k). split; [lia |]. intros fuel Hf.
  unfold main. rewrite V.
  destruct (main_loop_hits k s 0 [] fuel H It Q) as (out & E); [lia |].
  exists out. exact E.
Qed.

(** C10, on the program: the validation lets through the input made of
    1, 2, superscript two and 3 (4 characters, not all equal, all of them
    digits for [isdigit]), and the first step raises [ValueError] on it:
    the loop ends without reaching "6174". *)
Theorem main_raises_on_superscript_digit :
  len with_superscript = 4
  /\ len_set with_superscript = 4
  /\ isdigit with_superscript = true
  /\ invalid with_superscript = false
  /\ int (join (sorted with_superscript true)) = ValueError
  /\ forall fuel, main (S fuel) with_superscript = Raised [ "Step 1:" ].
Proof.
  repeat split; try (vm_compute; reflexivity).
Qed.

(** * Further properties of the two programs *)

(** ** What a returned step count means *)

Lemma zero_collapses : kaprekar_once "0000" = Ok "0000".
Proof. vm_compute. reflexivity. Qed.

Lemma kaprekar_const_fixed_point :
  kaprekar_once KAPREKAR_CONST = Ok KAPREKAR_CONST.
Proof. vm_compute. reflexivity. Qed.

(** A count returned by the loop is the number of iterations made, the
    iterate it ends on is the constant, and no earlier iterate is one the
    loop stops on. *)
Lemma while_loop_sound (n : nat) :
  forall (max_iter : Z) (s : string) (steps k : Z),
    (Z.to_nat (max_iter - steps) <= n)%nat ->
    while_loop max_iter s steps = Ok (Steps k) ->
    exists j : nat,
      k = steps + Z.of_nat j /\ iterate s j = Ok KAPREKAR_CONST
      /\ quiet s j /\ (j = 0%nat \/ k <= max_iter).
Proof.
  induction n as [| n IH]; intros max_iter s steps k Hn E;
    rewrite while_loop_unfold in E.
  - replace (steps <? max_iter) with false in E
      by (symmetry; apply Z.ltb_ge; lia).
    rewrite andb_false_r in E.
    destruct (String.eqb_spec s KAPREKAR_CONST) as [-> |]; [| discriminate E].
    injection E as <-. exists 0%nat.
    split; [lia |]. split; [reflexivity |].
    split; [intros i Hi; lia | now left].
  - destruct (negb (s =? KAPREKAR_CONST)%string && (steps <? max_iter)) eqn:G.
    + apply andb_prop in G as [Gc Gs]. apply negb_true_iff in Gc.
      apply Z.ltb_lt in Gs.
      destruct (kaprekar_once s) as [t |] eqn:K; [| discriminate E].
      destruct (t =? "0000")%string eqn:Zt; [discriminate E |].
      destruct (IH max_iter t (steps + 1) k) as (j & A & B & C & D);
        [lia | exact E |].
      exists (S j). split; [lia |].
      split; [simpl; rewrite K; exact B |]. split; [| right; lia].
      intros [| i] Hi.
      * exists s. split; [reflexivity |]. unfold stops. rewrite Gc.
        destruct (String.eqb_spec s "0000") as [-> |]; [| reflexivity].
        rewrite zero_collapses in K. injection K as <-. discriminate Zt.
      * destruct (C i) as (u & Eu & Hu); [lia |].
        exists u. split; [simpl; rewrite K; exact Eu | exact Hu].
    + destruct (String.eqb_spec s KAPREKAR_CONST) as [-> |];
        [| discriminate E].
      injection E as <-. exists 0%nat.
      split; [lia |]. split; [reflexivity |].
      split; [intros i Hi; lia | now left].
Qed.

Lemma steps_to_kaprekar_some (start_num : string) (max_iter k : Z) :
  steps_to_kaprekar start_num max_iter = Ok (Some k) ->
  is_repdigit (zfill start_num 4) = false
  /\ while_loop max_iter (zfill start_num 4) 0 = Ok (Steps k).
Proof.
  unfold steps_to_kaprekar, steps_to_kaprekar_exit. cbv zeta.
  destruct (is_repdigit (zfill start_num 4)); [discriminate |].
  destruct (while_loop max_iter (zfill start_num 4) 0) as [e |];
    [| discriminate].
  destruct e; try discriminate. cbn [bind returned].
  intros E. injection E as ->. auto.
Qed.

(** X1: whenever [steps_to_kaprekar] returns a count [k], on any string
    and with any cap, the padded start is no repdigit, [k] applications of
    the step lead from it to "6174" and fewer do not, no iterate on the
    way is "0000", and [k] is 0 or within the cap. *)
Theorem steps_to_kaprekar_sound (start_num : string) (max_iter k : Z)
  (E : steps_to_kaprekar start_num max_iter = Ok (Some k)) :
  is_repdigit (zfill start_num 4) = false
  /\ exists j : nat,
       k = Z.of_nat j
       /\ iterate (zfill start_num 4) j = Ok KAPREKAR_CONST
       /\ (forall i, (i < j)%nat ->
             iterate (zfill start_num 4) i <> Ok KAPREKAR_CONST
             /\ iterate (zfill start_num 4) i <> Ok "0000")
       /\ (k = 0 \/ k <= max_iter).
Proof.
  destruct (steps_to_kaprekar_some _ _ _ E) as [R L].
  split; [exact R |].
  destruct (while_loop_sound (Z.to_nat (max_iter - 0)) _ _ _ _ (le_n _) L)
    as (j & A & B & C & D).
  exists j. split; [lia |]. split; [exact B |]. split; [| lia].
  intros i Hi. destruct (C i Hi) as (u & Eu & Hu).
  apply stops_false in Hu as [Hc Hz]. rewrite Eu.
  split; intros X; injection X as ->; discriminate.
Qed.

Lemma steps_to_kaprekar_sound_witness :
  steps_to_kaprekar "3524" 50 = Ok (Some 3)
  /\ is_repdigit (zfill "3524" 4) = false.
Proof.
  assert (E : steps_to_kaprekar "3524" 50 = Ok (Some 3))
    by (vm_compute; reflexivity).
  split; [exact E |].
  exact (proj1 (steps_to_kaprekar_sound "3524" 50 3 E)).
Defined.

(** X2: raising the cap never changes a count already returned. *)
Theorem steps_to_kaprekar_cap_monotone (start_num : string)
  (max_iter max_iter' k : Z)
  (E : steps_to_kaprekar start_num max_iter = Ok (Some k))
  (Hm : max_iter <= max_iter') :
  steps_to_kaprekar start_num max_iter' = Ok (Some k).
Proof.
  destruct (steps_to_kaprekar_some _ _ _ E) as [R L].
  destruct (while_loop_sound (Z.to_nat (max_iter - 0)) _ _ _ _ (le_n _) L)
    as (j & A & B & C & D).
  unfold steps_to_kaprekar, steps_to_kaprekar_exit. cbv zeta. rewrite R.
  destruct (while_loop_cases (zfill start_num 4) max_iter' j C) as (W & _).
  rewrite W; [cbn [bind returned]; do 2 f_equal; lia | exact B |].
  destruct D as [D | D]; [now left | right; lia].
Qed.

Lemma steps_to_kaprekar_cap_monotone_witness :
  steps_to_kaprekar "3524" 3 = Ok (Some 3)
  /\ 3 <= 50
  /\ steps_to_kaprekar "3524" 50 = Ok (Some 3).
Proof.
  assert (E : steps_to_kaprekar "3524" 3 = Ok (Some 3))
    by (vm_compute; reflexivity).
  assert (Hm : 3 <= 50) by lia.
  split; [exact E |]. split; [exact Hm |].
  exact (steps_to_kaprekar_cap_monotone "3524" 3 50 3 E Hm).
Defined.

Lemma quiet_shorter (s : string) (j k : nat) :
  (j <= k)%nat -> quiet s k -> quiet s j.
Proof. intros Hjk Q i Hi. apply Q. lia. Qed.

(** X3: for a numeral that is no repdigit the cap only cuts the count
    short: with [k] the count under the default cap (at most 7), any cap
    gives [k] when [k] is 0 or within the cap, and [None] otherwise. *)
Theorem steps_to_kaprekar_by_cap (s : string)
  (H : numeral s) (R : is_repdigit s = false) :
  exists k,
    0 <= k <= 7
    /\ steps_to_kaprekar s default_max_iter = Ok (Some k)
    /\ forall max_iter,
         steps_to_kaprekar s max_iter
         = Ok (if (k <=? max_iter) || (k =? 0) then Some k else None).
Proof.
  destruct (converges s H R) as (j & Hj & It & Q).
  assert (L : forall m, steps_to_kaprekar s m
                        = e <- while_loop m s 0 ;; Ok (returned e)).
  { intros m. unfold steps_to_kaprekar, steps_to_kaprekar_exit.
    now rewrite (numeral_zfill s H), R. }
  assert (Yes : forall m, j = 0%nat \/ Z.of_nat j <= m ->
                          steps_to_kaprekar s m = Ok (Some (Z.of_nat j))).
  { intros m Hm. rewrite L.
    destruct (while_loop_cases s m j Q) as (A & _).
    now rewrite (A It Hm). }
  exists (Z.of_nat j). split; [lia |].
  split; [apply Yes; right; unfold default_max_iter; lia |].
  intros m.
  destruct ((Z.of_nat j <=? m) || (Z.of_nat j =? 0)) eqn:G.
  - apply Yes. apply orb_prop in G as [G | G]; [right | left]; lia.
  - apply orb_false_iff in G as [G1 G2].
    apply Z.leb_gt in G1. apply Z.eqb_neq in G2.
    rewrite L.
    destruct (while_loop_cases s m (Z.to_nat m)) as (_ & _ & C).
    + apply (quiet_shorter s _ j); [lia | exact Q].
    + rewrite C; [reflexivity | | reflexivity].
      apply (quiet_shorter s _ j); [lia | exact Q].
Qed.

Lemma steps_to_kaprekar_by_cap_witness :
  numeral "3524" /\ is_repdigit "3524" = false
  /\ exists k,
       0 <= k <= 7
       /\ steps_to_kaprekar "3524" default_max_iter = Ok (Some k)
       /\ forall max_iter,
            steps_to_kaprekar "3524" max_iter
            = Ok (if (k <=? max_iter) || (k =? 0) then Some k else None).
Proof.
  split; [exact numeral_3524 |]. split; [reflexivity |].
  exact (steps_to_kaprekar_by_cap "3524" numeral_3524 eq_refl).
Defined.

(** X4: the count is 0 exactly when the padded start is "6174", on any
    string and with any cap, a negative one included. *)
Theorem steps_to_kaprekar_zero_iff (start_num : string) (max_iter : Z) :
  steps_to_kaprekar start_num max_iter = Ok (Some 0)
  <-> zfill start_num 4 = KAPREKAR_CONST.
Proof.
  split.
  - intros E. destruct (steps_to_kaprekar_some _ _ _ E) as [_ L].
    destruct (while_loop_sound (Z.to_nat (max_iter - 0)) _ _ _ _ (le_n _) L)
      as (j & A & B & _).
    assert (j = 0%nat) as -> by lia. simpl in B. now injection B.
  - intros E. unfold steps_to_kaprekar, steps_to_kaprekar_exit. cbv zeta.
    rewrite E. change (is_repdigit KAPREKAR_CONST) with false. cbv iota.
    rewrite while_loop_unfold. reflexivity.
Qed.

(** X5: with a cap of 0 or less the step is never applied: every start
    that does not pad to "6174" gives [None], and nothing is raised, even
    on a string [int()] cannot read. *)
Theorem steps_to_kaprekar_no_budget (start_num : string) (max_iter : Z)
  (Hm : max_iter <= 0) (Hs : zfill start_num 4 <> KAPREKAR_CONST) :
  steps_to_kaprekar start_num max_iter = Ok None.
Proof.
  unfold steps_to_kaprekar, steps_to_kaprekar_exit. cbv zeta.
  destruct (is_repdigit (zfill start_num 4)); [reflexivity |].
  rewrite while_loop_unfold.
  replace (0 <? max_iter) with false by (symmetry; apply Z.ltb_ge; lia).
  rewrite andb_false_r.
  destruct (String.eqb_spec (zfill start_num 4) KAPREKAR_CONST) as [X |];
    [contradiction | reflexivity].
Qed.

Lemma steps_to_kaprekar_no_budget_witness :
  0 <= 0 /\ zfill "12x4" 4 <> KAPREKAR_CONST
  /\ steps_to_kaprekar "12x4" 0 = Ok None
  /\ kaprekar_once "12x4" = ValueError.
Proof.
  assert (Hm : 0 <= 0) by lia.
  assert (Hs : zfill "12x4" 4 <> KAPREKAR_CONST) by discriminate.
  split; [exact Hm |]. split; [exact Hs |].
  split; [exact (steps_to_kaprekar_no_budget "12x4" 0 Hm Hs) | reflexivity].
Defined.

(** ** Padding *)

Lemma join_length (l : list ascii) : String.length (join l) = List.length l.
Proof. induction l as [| c l IH]; simpl; [reflexivity | now rewrite IH]. Qed.

Lemma append_length (a b : string) :
  String.length (a ++ b) = (String.length a + String.length b)%nat.
Proof. induction a as [| c a IH]; simpl; [reflexivity | now rewrite IH]. Qed.

Lemma zfill_len (s : string) (width : Z) : width <= len (zfill s width).
Proof.
  unfold zfill. destruct (width <=? len s) eqn:G; [now apply Z.leb_le |].
  apply Z.leb_gt in G. unfold len in *.
  destruct s as [| c r].
  - rewrite join_length, repeat_length. simpl in *. lia.
  - destruct (is_sign c); cbn [String.length];
      rewrite append_length, join_length, repeat_length;
      cbn [String.length] in *; lia.
Qed.

Lemma zfill_idempotent (s : string) (width : Z) :
  zfill (zfill s width) width = zfill s width.
Proof.
  unfold zfill at 1.
  replace (width <=? len (zfill s width)) with true; [reflexivity |].
  symmetry. apply Z.leb_le. apply zfill_len.
Qed.

(** X6: the three functions read their argument padded with zeros on the
    left to 4 characters: on every string [s] each gives the same result
    on [s] and on [s.zfill(4)]. *)
Theorem padding_is_implicit (s : string) (max_iter : Z) :
  kaprekar_once (zfill s 4) = kaprekar_once s
  /\ is_repdigit (zfill s 4) = is_repdigit s
  /\ steps_to_kaprekar (zfill s 4) max_iter = steps_to_kaprekar s max_iter
  /\ 4 <= len (zfill s 4).
Proof.
  unfold steps_to_kaprekar, steps_to_kaprekar_exit, kaprekar_once, is_repdigit.
  cbv zeta. rewrite !zfill_idempotent.
  repeat split. apply zfill_len.
Qed.

(** ** The step and the order of the digits *)

Lemma ascii_leb_le (a b : ascii) :
  Ascii.leb a b = true <-> (N_of_ascii a <= N_of_ascii b)%N.
Proof.
  unfold Ascii.leb, Ascii.compare.
  destruct (N.compare_spec (N_of_ascii a) (N_of_ascii b));
    split; intros; try reflexivity; try discriminate; lia.
Qed.

Lemma char_le_trans (reverse : bool) (a b c : ascii) :
  char_le reverse a b = true -> char_le reverse b c = true ->
  char_le reverse a c = true.
Proof.
  unfold char_le. destruct reverse; rewrite !ascii_leb_le; lia.
Qed.

Lemma char_le_antisym (reverse : bool) (a b : ascii) :
  char_le reverse a b = true -> char_le reverse b a = true -> a = b.
Proof.
  unfold char_le. destruct reverse; intros X Y;
    [apply Ascii.leb_antisym | apply Ascii.leb_antisym]; assumption.
Qed.

Lemma sorted_strongly (reverse : bool) (s : string) :
  StronglySorted (fun a b => char_le reverse a b = true) (sorted s reverse).
Proof.
  apply Sorted_StronglySorted; [| apply sorted_ordered].
  intros a b c. apply char_le_trans.
Qed.

(** Two sorted lists with the same elements are the same list. *)
Lemma strongly_sorted_unique (reverse : bool) (l : list ascii) :
  forall l',
    StronglySorted (fun a b => char_le reverse a b = true) l ->
    StronglySorted (fun a b => char_le reverse a b = true) l' ->
    Permutation l l' -> l = l'.
Proof.
  induction l as [| a l IH]; intros [| b l'] S S' P.
  - reflexivity.
  - now apply Permutation_nil_cons in P.
  - apply Permutation_sym in P. now apply Permutation_nil_cons in P.
  - inversion S as [| ? ? Sl Fa]; subst. inversion S' as [| ? ? Sl' Fb]; subst.
    assert (E : a = b).
    { assert (Ia : In a (b :: l')) by (apply (Permutation_in _ P); now left).
      assert (Ib : In b (a :: l))
        by (apply (Permutation_in _ (Permutation_sym P)); now left).
      destruct Ia as [<- | Ia]; [reflexivity |].
      destruct Ib as [<- | Ib]; [reflexivity |].
      rewrite Forall_forall in Fa, Fb.
      apply (char_le_antisym reverse); [now apply Fa | now apply Fb]. }
    subst b. f_equal. apply IH; try assumption.
    now apply Permutation_cons_inv in P.
Qed.

Lemma sorted_of_permutation (reverse : bool) (s s' : string) :
  Permutation (chars s) (chars s') -> sorted s reverse = sorted s' reverse.
Proof.
  intros P. apply (strongly_sorted_unique reverse);
    try apply sorted_strongly.
  apply perm_trans with (chars s); [apply sorted_permutation |].
  apply perm_trans with (chars s'); [exact P |].
  apply Permutation_sym, sorted_permutation.
Qed.

Lemma chars_append (a b : string) :
  chars (a ++ b) = (chars a ++ chars b)%list.
Proof.
  unfold chars. induction a as [| c a IH]; simpl; [reflexivity |].
  now rewrite IH.
Qed.

Lemma chars_join (l : list ascii) : chars (join l) = l.
Proof. apply list_ascii_of_string_of_list_ascii. Qed.

Lemma chars_length (s : string) : List.length (chars s) = String.length s.
Proof.
  unfold chars. induction s as [| c s IH]; simpl; [reflexivity |].
  now rewrite IH.
Qed.

(** Padding adds zeros and keeps every character. *)
Lemma zfill_permutation (s : string) (width : Z) :
  Permutation (chars (zfill s width))
    (repeat "0"%char (Z.to_nat (width - len s)) ++ chars s).
Proof.
  unfold zfill. destruct (width <=? len s) eqn:G.
  - apply Z.leb_le in G. replace (Z.to_nat (width - len s)) with 0%nat by lia.
    apply Permutation_refl.
  - destruct s as [| c r].
    + rewrite chars_join. change (chars EmptyString) with (@nil ascii).
      rewrite app_nil_r. apply Permutation_refl.
    + destruct (is_sign c).
      * change (chars (String c (join (repeat "0"%char
                  (Z.to_nat (width - len (String c r)))) ++ r)))
          with (c :: chars (join (repeat "0"%char
                  (Z.to_nat (width - len (String c r)))) ++ r)).
        rewrite chars_append, chars_join.
        change (chars (String c r)) with (c :: chars r).
        apply Permutation_middle.
      * rewrite chars_append, chars_join. apply Permutation_refl.
Qed.

Lemma zfill_of_permutation (s s' : string) (width : Z) :
  Permutation (chars s) (chars s') ->
  Permutation (chars (zfill s width)) (chars (zfill s' width)).
Proof.
  intros P.
  assert (L : len s = len s').
  { unfold len. rewrite <- !chars_length. now rewrite (Permutation_length P). }
  apply perm_trans
    with (repeat "0"%char (Z.to_nat (width - len s)) ++ chars s)%list.
  - apply zfill_permutation.
  - rewrite L. apply perm_trans
      with (repeat "0"%char (Z.to_nat (width - len s')) ++ chars s')%list.
    + now apply Permutation_app_head.
    + apply Permutation_sym, zfill_permutation.
Qed.

(** X7: the step depends on which characters its argument has, not on
    their order: on two strings that are rearrangements of each other
    [kaprekar_once] gives the same result (or raises on both), and so does
    [kaprekar] of the interactive tool, printed lines included. *)
Theorem kaprekar_once_of_permutation (s s' : string)
  (P : Permutation (chars s) (chars s')) :
  kaprekar_once s = kaprekar_once s' /\ kaprekar s = kaprekar s'.
Proof.
  unfold kaprekar_once, kaprekar. cbv zeta.
  rewrite (sorted_of_permutation true _ _ (zfill_of_permutation s s' 4 P)).
  rewrite (sorted_of_permutation false _ _ (zfill_of_permutation s s' 4 P)).
  rewrite (sorted_of_permutation true _ _ P).
  rewrite (sorted_of_permutation false _ _ P).
  split; reflexivity.
Qed.

Lemma kaprekar_once_of_permutation_witness :
  Permutation (chars "3524") (chars "5432")
  /\ kaprekar_once "3524" = kaprekar_once "5432".
Proof.
  assert (P : Permutation (chars "3524") (chars "5432")).
  { apply Permutation_sym. exact (sorted_permutation true "3524"). }
  split; [exact P |].
  exact (proj1 (kaprekar_once_of_permutation "3524" "5432" P)).
Defined.

Lemma step_values_checked :
  forallb (fun t =>
             is_ok_with (fun v => v mod 9 =? 0) (int t)
             && is_ok_with (fun u => negb (u =? t)%string
                                     || (t =? KAPREKAR_CONST)%string)
                  (kaprekar_once t)) step_values = true.
Proof. vm_compute. reflexivity. Qed.

(** X8: among the 4-digit numerals the step has exactly two fixed
    points, "6174" and "0000". *)
Theorem kaprekar_once_fixed_points (s : string) (H : numeral s) :
  kaprekar_once s = Ok s <-> s = KAPREKAR_CONST \/ s = "0000".
Proof.
  split.
  - intros E. destruct (is_repdigit s) eqn:R.
    + right. rewrite (repdigit_collapses s H R) in E. now injection E.
    + left.
      destruct (kaprekar_once_keeps_non_repdigit s H R)
        as (t & Et & _ & _ & Hin).
      rewrite E in Et. injection Et as <-.
      pose proof step_values_checked as V. rewrite forallb_forall in V.
      specialize (V s Hin). apply andb_prop in V as [_ V].
      rewrite E in V. cbn [is_ok_with] in V.
      rewrite String.eqb_refl in V. cbn [negb orb] in V.
      now apply String.eqb_eq.
  - intros [-> | ->]; [exact kaprekar_const_fixed_point | exact zero_collapses].
Qed.

Lemma kaprekar_once_fixed_points_witness :
  numeral "3524" /\ kaprekar_once "3524" <> Ok "3524".
Proof.
  split; [exact numeral_3524 |].
  intros E.
  destruct (proj1 (kaprekar_once_fixed_points "3524" numeral_3524) E)
    as [X | X]; discriminate X.
Defined.

(** X9: on every 4-digit numeral the value of the result of the step is
    a multiple of 9. *)
Theorem kaprekar_once_multiple_of_9 (s : string) (H : numeral s) :
  exists t v, kaprekar_once s = Ok t /\ int t = Ok v /\ v mod 9 = 0.
Proof.
  destruct (is_repdigit s) eqn:R.
  - exists "0000", 0. split; [now apply repdigit_collapses |].
    split; reflexivity.
  - destruct (kaprekar_once_keeps_non_repdigit s H R)
      as (t & Et & _ & _ & Hin).
    pose proof step_values_checked as V. rewrite forallb_forall in V.
    specialize (V t Hin). apply andb_prop in V as [V _].
    apply is_ok_with_inv in V as (v & Ev & Hv).
    exists t, v. split; [exact Et |]. split; [exact Ev | lia].
Qed.

Lemma kaprekar_once_multiple_of_9_witness :
  numeral "3524"
  /\ exists t v, kaprekar_once "3524" = Ok t /\ int t = Ok v /\ v mod 9 = 0.
Proof.
  split; [exact numeral_3524 |].
  exact (kaprekar_once_multiple_of_9 "3524" numeral_3524).
Defined.

(** ** Writing numerals and reading them back *)

Lemma numerals_read_back :
  forallb (fun s =>
             is_ok_with (fun n => (0 <=? n) && (n <=? 9999)
                                  && (zfill (str n) 4 =? s)%string) (int s))
    numerals_by_digit = true.
Proof. vm_compute. reflexivity. Qed.

Lemma numbers_read_back :
  forallb (fun n => numeralb (zfill (str n) 4)
                    && is_ok_with (Z.eqb n) (int (zfill (str n) 4)))
    (range 0 10000) = true.
Proof. vm_compute. reflexivity. Qed.

Lemma in_range (lo hi n : Z) : In n (range lo hi) <-> lo <= n < hi.
Proof.
  unfold range. rewrite range_from_seq, in_map_iff. split.
  - intros (i & <- & Hi). apply in_seq in Hi. lia.
  - intros Hn. exists (Z.to_nat (n - lo)). split; [lia |].
    apply in_seq. lia.
Qed.

Lemma numeral_reads_back (s : string) :
  numeral s ->
  exists n, int s = Ok n /\ 0 <= n <= 9999 /\ zfill (str n) 4 = s.
Proof.
  intros H.
  pose proof numerals_read_back as V. rewrite forallb_forall in V.
  specialize (V s (numeral_in_by_digit s H)).
  apply is_ok_with_inv in V as (n & En & Hn).
  apply andb_prop in Hn as [Hn E]. apply andb_prop in Hn as [H0 H9].
  exists n. split; [exact En |]. split; [lia | now apply String.eqb_eq].
Qed.

(** X10: every 4-digit numeral reads as a number from 0 to 9999, and
    writing that number with [str(..).zfill(4)] gives the numeral back. *)
Theorem numeral_read_then_written (s : string) (H : numeral s) :
  exists n, int s = Ok n /\ 0 <= n <= 9999 /\ zfill (str n) 4 = s.
Proof. now apply numeral_reads_back. Qed.

Lemma numeral_read_then_written_witness :
  numeral "3524"
  /\ exists n, int "3524" = Ok n /\ 0 <= n <= 9999 /\ zfill (str n) 4 = "3524".
Proof.
  split; [exact numeral_3524 |].
  exact (numeral_read_then_written "3524" numeral_3524).
Defined.

Lemma number_reads_back (n : Z) :
  0 <= n <= 9999 ->
  numeral (zfill (str n) 4) /\ int (zfill (str n) 4) = Ok n.
Proof.
  intros H.
  pose proof numbers_read_back as V. rewrite forallb_forall in V.
  assert (Hin : In n (range 0 10000)) by (apply in_range; lia).
  specialize (V n Hin). apply andb_prop in V as [Vn Vi].
  split; [now apply numeralb_sound |].
  apply is_ok_with_inv in Vi as (m & Em & Hm).
  apply Z.eqb_eq in Hm. now subst m.
Qed.

(** X11: every number from 0 to 9999 is written by [str(n).zfill(4)] as
    a 4-digit numeral, and [int] reads that numeral back as the number. *)
Theorem number_written_then_read (n : Z) (H : 0 <= n <= 9999) :
  numeral (zfill (str n) 4) /\ int (zfill (str n) 4) = Ok n.
Proof. now apply number_reads_back. Qed.

Lemma number_written_then_read_witness :
  0 <= 14 <= 9999
  /\ numeral (zfill (str 14) 4) /\ int (zfill (str 14) 4) = Ok 14.
Proof.
  assert (H : 0 <= 14 <= 9999) by lia.
  split; [exact H |].
  exact (number_written_then_read 14 H).
Defined.

Lemma range_from_bounds (n : nat) :
  forall lo x, In x (range_from lo n) -> lo <= x < lo + Z.of_nat n.
Proof.
  intros lo x. rewrite range_from_seq, in_map_iff.
  intros (i & <- & Hi). apply in_seq in Hi. lia.
Qed.

Lemma range_from_nodup (n : nat) : forall lo, NoDup (range_from lo n).
Proof.
  induction n as [| n IH]; intros lo; cbn [range_from]; constructor.
  - intros Hin. apply range_from_bounds in Hin. lia.
  - apply IH.
Qed.

Lemma all_numerals_nodup : NoDup all_numerals.
Proof.
  unfold all_numerals, rendered. apply NoDup_map_NoDup_ForallPairs.
  - intros x y Hx Hy E. apply in_range in Hx, Hy.
    destruct (number_reads_back x) as [_ Ex]; [lia |].
    destruct (number_reads_back y) as [_ Ey]; [lia |].
    rewrite E in Ex. rewrite Ex in Ey. now injection Ey.
  - apply range_from_nodup.
Qed.

Lemma all_numerals_complete (s : string) : In s all_numerals <-> numeral s.
Proof.
  split.
  - pose proof all_numerals_are_numerals as F.
    rewrite Forall_forall in F. apply F.
  - intros H. destruct (numeral_reads_back s H) as (n & _ & Hn & <-).
    unfold all_numerals, rendered.
    apply (in_map (fun n => zfill (str n) 4)). apply in_range. lia.
Qed.

(** X12: the loop of [compute_all] meets every 4-digit numeral, meets
    nothing else, and meets none twice. *)
Theorem compute_all_enumeration :
  NoDup all_numerals /\ forall s, In s all_numerals <-> numeral s.
Proof. split; [exact all_numerals_nodup | exact all_numerals_complete]. Qed.

(** ** Repdigits *)

Lemma nodup_singleton (l : list ascii) :
  List.length (nodup ascii_dec l) = 1%nat
  <-> exists c, l <> [] /\ Forall (eq c) l.
Proof.
  split.
  - intros L. destruct (nodup ascii_dec l) as [| c [| d r]] eqn:N;
      try discriminate L.
    exists c. split.
    + intros ->. discriminate N.
    + apply Forall_forall. intros x Hx.
      apply (nodup_In ascii_dec) in Hx. rewrite N in Hx.
      destruct Hx as [-> | []]. reflexivity.
  - intros (c & Hne & F). induction l as [| a l IH]; [contradiction |].
    assert (Ea : c = a) by (inversion F; assumption).
    assert (Fl : Forall (eq c) l) by (inversion F; assumption).
    subst a. cbn [nodup].
    destruct (in_dec ascii_dec c l) as [Hin | Hout].
    + apply IH; [| exact Fl]. intros ->. destruct Hin.
    + destruct l as [| b l]; [reflexivity |].
      exfalso. apply Hout. left. inversion Fl; auto.
Qed.

(** X13: [is_repdigit] is true exactly when all the characters of the
    padded argument are the same one, on every string; the empty string
    and "0" count as repdigits, since they pad to "0000". *)
Theorem is_repdigit_all_same (s : string) :
  (is_repdigit s = true <-> exists c, Forall (eq c) (chars (zfill s 4)))
  /\ is_repdigit EmptyString = true /\ is_repdigit "0" = true.
Proof.
  split; [| split; reflexivity].
  unfold is_repdigit, len_set. cbv zeta. rewrite Z.eqb_eq.
  assert (Hne : chars (zfill s 4) <> []).
  { intros E. pose proof (zfill_len s 4) as L. unfold len in L.
    rewrite <- chars_length, E in L. simpl in L. lia. }
  split.
  - intros L.
    destruct (proj1 (nodup_singleton (chars (zfill s 4)))) as (c & _ & F);
      [lia | eauto].
  - intros (c & F).
    assert (N : List.length (nodup ascii_dec (chars (zfill s 4))) = 1%nat)
      by (apply nodup_singleton; eauto).
    lia.
Qed.

(** ** The summary of [stats_and_plot] *)

Lemma fold_max_spec (r : list Z) :
  forall x,
    x <= fold_left Z.max r x
    /\ Forall (fun y => y <= fold_left Z.max r x) r
    /\ (fold_left Z.max r x = x \/ In (fold_left Z.max r x) r).
Proof.
  induction r as [| y r IH]; intros x; cbn [fold_left].
  - split; [lia |]. split; [constructor | now left].
  - destruct (IH (Z.max x y)) as (A & B & C).
    split; [lia |]. split; [constructor; [lia | exact B] |].
    destruct C as [C | C]; [| right; now right].
    rewrite C. destruct (Z.max_spec x y) as [[_ ->] | [_ ->]];
      [right; now left | now left].
Qed.

Lemma max_spec (l : list Z) (m : Z) :
  max l = Ok m <-> In m l /\ Forall (fun y => y <= m) l.
Proof.
  destruct l as [| x r]; cbn [max].
  - split; [discriminate | intros [[] _]].
  - destruct (fold_max_spec r x) as (A & B & C). split.
    + intros E. injection E as <-. split.
      * destruct C as [-> | C]; [now left | now right].
      * constructor; assumption.
    + intros [Hin F]. f_equal.
      assert (U : fold_left Z.max r x <= m).
      { rewrite Forall_forall in F. apply F.
        destruct C as [-> | C]; [now left | now right]. }
      assert (L : m <= fold_left Z.max r x).
      { destruct Hin as [<- | Hin]; [exact A |].
        rewrite Forall_forall in B. now apply B. }
      lia.
Qed.

(** The numbers [stats_and_plot] lists for the count [mx]. *)
Lemma for_each_nums_with_max (mx : Z) (l : list Z) :
  forall acc,
    Forall numeral (rendered l) ->
    for_each (nums_with_max_body mx) l acc
    = Ok (acc ++ filter (fun s =>
                           match steps_to_kaprekar s default_max_iter with
                           | Ok (Some k) => k =? mx
                           | _ => false
                           end) (analysed (rendered l)))%list.
Proof.
  induction l as [| n l IH]; intros acc F.
  - simpl. now rewrite app_nil_r.
  - simpl in F. inversion F as [| ? ? Hn Fl]; subst.
    cbn [for_each rendered map analysed filter].
    unfold nums_with_max_body at 1. cbv zeta.
    destruct (is_repdigit (zfill (str n) 4)) eqn:R; cbn [negb bind].
    + now apply IH.
    + destruct (steps_to_kaprekar_exit_returns _ default_max_iter Hn)
        as (e & _ & E & _).
      cbn [filter]. rewrite E. cbn [bind].
      destruct (returned e) as [k |]; [destruct (k =? mx) |]; cbn [bind];
        rewrite (IH _ Fl); unfold analysed, rendered;
        rewrite <- ?app_assoc; reflexivity.
Qed.

Lemma stats_summary_on (counts : list Z) :
  counts <> [] ->
  exists mx nums,
    stats_summary counts
    = Ok (Some (Z.of_nat (List.length counts), mx, nums))
    /\ In mx counts /\ Forall (fun c => c <= mx) counts
    /\ nums = filter (fun s =>
                        match steps_to_kaprekar s default_max_iter with
                        | Ok (Some k) => k =? mx
                        | _ => false
                        end) (analysed all_numerals)
    /\ forall s, In s nums <->
                 numeral s /\ is_repdigit s = false
                 /\ steps_to_kaprekar s default_max_iter = Ok (Some mx).
Proof.
  intros H. destruct counts as [| c r]; [contradiction |].
  destruct (max (c :: r)) as [mx |] eqn:M; [| discriminate M].
  exists mx. eexists. unfold stats_summary. rewrite M. cbn [bind].
  rewrite (for_each_nums_with_max mx (range 0 10000) []
             all_numerals_are_numerals).
  cbn [bind app]. split; [reflexivity |].
  apply max_spec in M as [Hin F].
  split; [exact Hin |]. split; [exact F |]. split; [reflexivity |].
  intros s. fold all_numerals. rewrite filter_In. unfold analysed.
  rewrite filter_In, negb_true_iff.
  rewrite all_numerals_complete.
  split.
  - intros [[Hs R] E]. split; [exact Hs |]. split; [exact R |].
    destruct (steps_to_kaprekar s default_max_iter) as [[k |] |];
      try discriminate E.
    apply Z.eqb_eq in E. now subst k.
  - intros (Hs & R & E). split; [now split |].
    rewrite E. apply Z.eqb_refl.
Qed.

(** X14: on a non-empty list of counts the summary of [stats_and_plot]
    is made without raising: the number of counts, their greatest element,
    and, in ascending order, exactly the 4-digit numerals that are no
    repdigits and whose step count is that maximum.  On the empty list it
    is the message alone. *)
Theorem stats_summary_spec (counts : list Z) (H : counts <> []) :
  stats_summary [] = Ok None
  /\ exists mx nums,
       stats_summary counts
       = Ok (Some (Z.of_nat (List.length counts), mx, nums))
       /\ In mx counts /\ Forall (fun c => c <= mx) counts
       /\ nums = filter (fun s =>
                           match steps_to_kaprekar s default_max_iter with
                           | Ok (Some k) => k =? mx
                           | _ => false
                           end) (analysed all_numerals)
       /\ forall s, In s nums <->
                    numeral s /\ is_repdigit s = false
                    /\ steps_to_kaprekar s default_max_iter = Ok (Some mx).
Proof. split; [reflexivity | now apply stats_summary_on]. Qed.

Lemma stats_summary_spec_witness :
  [3; 5; 1] <> [] /\
  exists mx nums,
    stats_summary [3; 5; 1] = Ok (Some (3, mx, nums)) /\ In mx [3; 5; 1].
Proof.
  assert (H : [3; 5; 1] <> []) by discriminate.
  split; [exact H |].
  destruct (proj2 (stats_summary_spec [3; 5; 1] H))
    as (mx & nums & E & Hin & _).
  exists mx, nums. split; [exact E | exact Hin].
Defined.

Lemma counts_of_in (l : list string) (k : Z) :
  In k (counts_of l) <->
  exists s, In s l /\ steps_to_kaprekar s default_max_iter = Ok (Some k).
Proof.
  unfold counts_of. rewrite in_flat_map. split.
  - intros (s & Hs & Hk). exists s. split; [exact Hs |].
    destruct (steps_to_kaprekar s default_max_iter) as [[j |] |];
      [destruct Hk as [-> | []]; reflexivity | destruct Hk | destruct Hk].
  - intros (s & Hs & E). exists s. split; [exact Hs |]. rewrite E. now left.
Qed.

(** X15: on the counts [compute_all] returns, [stats_and_plot] reports
    9990 numbers tested and a maximum of 7 steps: no 4-digit numeral
    other than a repdigit takes more than 7 steps, and some take exactly
    7, "0014" among them. *)
Theorem stats_of_compute_all :
  exists counts nums,
    compute_all = Ok (counts, [])
    /\ stats_summary counts = Ok (Some (9990, 7, nums))
    /\ Forall (fun c => 0 <= c <= 7) counts
    /\ In "0014" nums
    /\ forall s, In s nums <->
                 numeral s /\ steps_to_kaprekar s default_max_iter = Ok (Some 7).
Proof.
  pose proof (analysed_numerals _ all_numerals_are_numerals) as A.
  rewrite Forall_forall in A.
  set (counts := counts_of (analysed all_numerals)).
  assert (B : Forall (fun c => 0 <= c <= 7) counts).
  { apply Forall_forall. intros k Hk. apply counts_of_in in Hk as (s & Hs & E).
    destruct (A s Hs) as [Hn R].
    destruct (steps_to_kaprekar_on_non_repdigit s Hn R) as (k' & Hk' & E').
    rewrite E in E'. injection E' as <-. exact Hk'. }
  assert (N14 : numeral "0014") by (apply numeralb_sound; reflexivity).
  assert (S14 : steps_to_kaprekar "0014" default_max_iter = Ok (Some 7))
    by (vm_compute; reflexivity).
  assert (I7 : In 7 counts).
  { apply counts_of_in. exists "0014". split; [| exact S14].
    apply filter_In. split; [now apply all_numerals_complete | reflexivity]. }
  assert (Hne : counts <> []) by (intros E; rewrite E in I7; destruct I7).
  destruct (stats_summary_on counts Hne) as (mx & nums & E & Hin & F & _ & Hn).
  assert (mx = 7) as ->.
  { rewrite Forall_forall in F, B. specialize (F 7 I7).
    specialize (B mx Hin). lia. }
  assert (L : Z.of_nat (List.length counts) = 9990).
  { assert (FN : Forall numeral (analysed all_numerals)).
    { apply Forall_forall. intros s Hs. now destruct (A s Hs). }
    pose proof (counts_failures_length (analysed all_numerals) FN) as L.
    rewrite (failures_of_non_repdigits _
               (analysed_numerals _ all_numerals_are_numerals)) in L.
    pose proof analysed_length as L'. subst counts.
    change (List.length (@nil string)) with 0%nat in L. lia. }
  exists counts, nums. rewrite L in E.
  split.
  { rewrite compute_all_value.
    now rewrite (failures_of_non_repdigits _
                   (analysed_numerals _ all_numerals_are_numerals)). }
  split; [exact E |]. split; [exact B |].
  split.
  { apply Hn. split; [exact N14 |]. split; [reflexivity | exact S14]. }
  intros s. rewrite Hn. split.
  - intros (Hs & _ & E7). now split.
  - intros (Hs & E7). split; [exact Hs |]. split; [| exact E7].
    destruct (is_repdigit s) eqn:R; [| reflexivity].
    unfold steps_to_kaprekar, steps_to_kaprekar_exit in E7.
    rewrite (numeral_zfill s Hs), R in E7. discriminate E7.
Qed.

(** ** Every run of the interactive tool *)

Ltac code_cases :=
  repeat match goal with
         | |- context [?a <=? ?b] => destruct (Z.leb_spec a b)
         | |- context [?a =? ?b] => destruct (Z.eqb_spec a b)
         | H : context [?a <=? ?b] |- _ => destruct (Z.leb_spec a b)
         | H : context [?a =? ?b] |- _ => destruct (Z.eqb_spec a b)
         end;
  cbn [andb orb negb] in *; try reflexivity; try discriminate; try lia.

Lemma isdigit_char_not_space (c : ascii) :
  isdigit_char c = true -> int_space c = false.
Proof. unfold isdigit_char, int_space. intros H. code_cases. Qed.

Lemma isdigit_char_split (c : ascii) :
  isdigit_char c = true -> decimal c \/ digit_val c = None.
Proof.
  unfold isdigit_char, digit_val, decimal. intros H.
  destruct ((48 <=? code c) && (code c <=? 57)) eqn:D; [left | now right].
  apply andb_prop in D as [D1 D2]. lia.
Qed.

Lemma decimal_digit_val (c : ascii) : decimal c -> digit_val c <> None.
Proof.
  unfold decimal, digit_val. intros H.
  replace (48 <=? code c) with true by (symmetry; apply Z.leb_le; lia).
  replace (code c <=? 57) with true by (symmetry; apply Z.leb_le; lia).
  discriminate.
Qed.

Lemma isdigit_char_no_mark (c : ascii) :
  isdigit_char c = true ->
  (c =? "+")%char = false /\ (c =? "-")%char = false
  /\ (c =? "_")%char = false.
Proof.
  intros H. repeat split; apply Ascii.eqb_neq; intros ->; discriminate H.
Qed.

Lemma lstrip_no_space (l : list ascii) :
  Forall (fun c => int_space c = false) l -> lstrip l = l.
Proof.
  intros F. destruct l as [| c r]; [reflexivity |].
  inversion F as [| ? ? Hc _]; subst. cbn [lstrip]. now rewrite Hc.
Qed.

Lemma strip_no_space (l : list ascii) :
  Forall (fun c => int_space c = false) l -> strip l = l.
Proof.
  intros F. unfold strip. rewrite (lstrip_no_space l F).
  rewrite lstrip_no_space; [apply rev_involutive | now apply Forall_rev].
Qed.

(** [int] turns down a run of [isdigit] characters one of which is no
    decimal digit. *)
Lemma int_digits_not_decimal (l : list ascii) :
  forall acc after_digit,
    Forall (fun c => isdigit_char c = true) l ->
    (exists c, In c l /\ digit_val c = None) ->
    int_digits l acc after_digit = ValueError.
Proof.
  induction l as [| c r IH]; intros acc after_digit F (b & Hb & Nb).
  - destruct Hb.
  - inversion F as [| ? ? Hc Fr]; subst. cbn [int_digits].
    destruct (digit_val c) as [d |] eqn:D.
    + apply IH; [exact Fr |]. exists b. split; [| exact Nb].
      destruct Hb as [-> | Hb]; [congruence | exact Hb].
    + destruct (isdigit_char_no_mark c Hc) as (_ & _ & ->). reflexivity.
Qed.

Lemma int_not_decimal (l : list ascii) :
  Forall (fun c => isdigit_char c = true) l ->
  (exists c, In c l /\ digit_val c = None) ->
  int (join l) = ValueError.
Proof.
  intros F B. unfold int. rewrite chars_join, strip_no_space.
  - destruct l as [| c r]; [reflexivity |].
    inversion F as [| ? ? Hc _]; subst.
    destruct (isdigit_char_no_mark c Hc) as (-> & -> & _).
    now apply int_digits_not_decimal.
  - apply Forall_forall. intros c Hc. rewrite Forall_forall in F.
    now apply isdigit_char_not_space, F.
Qed.

Lemma forallb_false {A : Type} (p : A -> bool) (l : list A) :
  forallb p l = false -> exists x, In x l /\ p x = false.
Proof.
  induction l as [| a l IH]; cbn [forallb]; [discriminate |].
  destruct (p a) eqn:Pa; cbn [andb].
  - intros E. destruct (IH E) as (x & Hx & Px). exists x. split; [now right | exact Px].
  - intros _. exists a. split; [now left | exact Pa].
Qed.

(** What the test of line 14 lets through. *)
Lemma accepted_input (s : string) :
  invalid s = false ->
  String.length s = 4%nat /\ (len_set s =? 1) = false
  /\ Forall (fun c => isdigit_char c = true) (chars s).
Proof.
  unfold invalid, isdigit. intros V.
  apply orb_false_iff in V as [V Vd]. apply orb_false_iff in V as [Vl Vs].
  apply negb_false_iff in Vl, Vd. apply Z.eqb_eq in Vl.
  apply andb_prop in Vd as [_ Vd].
  split; [unfold len in Vl; lia |]. split; [exact Vs |].
  apply Forall_forall. rewrite forallb_forall in Vd. exact Vd.
Qed.

(** An accepted input with a character that is no decimal digit makes
    the first call of [kaprekar] raise. *)
Lemma kaprekar_not_decimal (s : string) :
  Forall (fun c => isdigit_char c = true) (chars s) ->
  (exists c, In c (chars s) /\ digit_val c = None) ->
  kaprekar s = ValueError.
Proof.
  intros F (b & Hb & Nb). unfold kaprekar. cbv zeta.
  rewrite int_not_decimal; [reflexivity | |].
  - apply Forall_forall. intros c Hc. rewrite Forall_forall in F. apply F.
    now apply (Permutation_in _ (sorted_permutation true s)).
  - exists b. split; [| exact Nb].
    now apply (Permutation_in _ (Permutation_sym (sorted_permutation true s))).
Qed.

Lemma numeral_all_decimal (s : string) :
  numeral s -> forall c, In c (chars s) -> digit_val c <> None.
Proof.
  intros [_ F] c Hc. rewrite Forall_forall in F.
  now apply decimal_digit_val, F.
Qed.

(** X16: whatever line it reads, the interactive tool does not run on
    for ever: within 7 iterations it has turned the input down, or
    reached "6174" (on 4 decimal digits not all equal), or raised
    [ValueError] in its first step, which happens exactly on the accepted
    inputs that have a character other than [0]-[9]. *)
Theorem main_outcomes (s : string) (fuel : nat) (Hf : (7 <= fuel)%nat) :
  match main fuel s with
  | Rejected out => invalid s = true
  | Reached step out =>
      invalid s = false /\ numeral s /\ is_repdigit s = false
      /\ 0 <= step <= 7
  | Raised out =>
      invalid s = false /\ ~ numeral s /\ out = [ "Step 1:" ]
  | Running _ _ _ => False
  end.
Proof.
  destruct (invalid s) eqn:V.
  - unfold main. rewrite V. reflexivity.
  - destruct (accepted_input s V) as (L & S1 & F).
    destruct (forallb (fun c => (48 <=? code c) && (code c <=? 57)) (chars s))
      eqn:D.
    + assert (H : numeral s).
      { apply numeralb_sound. unfold numeralb. rewrite L, D. reflexivity. }
      assert (R : is_repdigit s = false).
      { unfold is_repdigit. now rewrite (numeral_zfill s H). }
      destruct (main_reaches_const_on_numerals s H R)
        as (_ & step & Hs & M).
      destruct (M fuel Hf) as (out & ->). auto.
    + apply forallb_false in D as (b & Hb & Nb).
      assert (Bad : digit_val b = None).
      { unfold digit_val. now rewrite Nb. }
      assert (NN : ~ numeral s).
      { intros H. now apply (numeral_all_decimal s H b Hb). }
      destruct fuel as [| fuel]; [lia |].
      unfold main. rewrite V. cbn [main_loop].
      destruct (String.eqb_spec s "6174") as [-> | _].
      * exfalso. apply NN. apply numeralb_sound. reflexivity.
      * cbn [negb]. rewrite (kaprekar_not_decimal s F); [| eauto].
        split; [reflexivity |]. split; [exact NN | reflexivity].
Qed.

Lemma main_outcomes_witness :
  (7 <= 7)%nat /\ main 7 with_superscript = Raised [ "Step 1:" ]
  /\ ~ numeral with_superscript.
Proof.
  assert (Hf : (7 <= 7)%nat) by lia.
  split; [exact Hf |].
  pose proof (main_outcomes with_superscript 7 Hf) as M.
  assert (E : main 7 with_superscript = Raised [ "Step 1:" ]) by reflexivity.
  split; [exact E |]. rewrite E in M. now destruct M as (_ & M & _).
Defined.

(** X17: on 4 decimal digits not all equal, the interactive tool counts
    the steps that [steps_to_kaprekar] returns under its default cap. *)
Theorem main_agrees_with_steps_to_kaprekar (s : string) (fuel : nat)
  (H : numeral s) (R : is_repdigit s = false) (Hf : (7 <= fuel)%nat) :
  exists k out,
    steps_to_kaprekar s default_max_iter = Ok (Some k)
    /\ main fuel s = Reached k out.
Proof.
  destruct (converges s H R) as (j & Hj & It & Q).
  destruct (main_reaches_const_on_numerals s H R) as (V & _).
  destruct (main_loop_hits j s 0 [] fuel H It Q) as (out & M); [lia |].
  exists (Z.of_nat j), out. split.
  - unfold steps_to_kaprekar, steps_to_kaprekar_exit.
    rewrite (numeral_zfill s H), R.
    destruct (while_loop_cases s default_max_iter j Q) as (A & _).
    rewrite (A It); [reflexivity |]. right. unfold default_max_iter. lia.
  - unfold main. rewrite V. exact M.
Qed.

Lemma main_agrees_with_steps_to_kaprekar_witness :
  numeral "3524" /\ is_repdigit "3524" = false /\ (7 <= 7)%nat
  /\ exists k out,
       steps_to_kaprekar "3524" default_max_iter = Ok (Some k)
       /\ main 7 "3524" = Reached k out.
Proof.
  assert (Hf : (7 <= 7)%nat) by lia.
  split; [exact numeral_3524 |]. split; [reflexivity |]. split; [exact Hf |].
  exact (main_agrees_with_steps_to_kaprekar "3524" 7 numeral_3524 eq_refl Hf).
Defined.

Lemma kaprekar_lines (s : string) (d : Z) (lines : list string) :
  kaprekar s = Ok (d, lines) -> List.length lines = 4%nat.
Proof.
  unfold kaprekar. cbv zeta.
  destruct (int (join (sorted s true))) as [a |]; [| discriminate].
  destruct (int (join (sorted s false))) as [b |]; [| discriminate].
  cbn [bind]. intros E. injection E as _ <-. reflexivity.
Qed.

(** The lines printed on the way to the constant: 6 for each step, then
    the closing line with the count. *)
Lemma main_loop_trace (k : nat) :
  forall s step out fuel,
    numeral s -> iterate s k = Ok KAPREKAR_CONST -> quiet s k ->
    (k <= fuel)%nat ->
    exists body,
      main_loop fuel s step out
      = Reached (step + Z.of_nat k)
          (out ++ body
               ++ [("Reached Kaprekar's constant 6174! in "
                    ++ str (step + Z.of_nat k) ++ " steps.")%string])%list
      /\ List.length body = (6 * k)%nat.
Proof.
  induction k as [| k IH]; intros s step out fuel H It Q Hf.
  - simpl in It. injection It as ->. exists [].
    rewrite Z.add_0_r. split; [destruct fuel; reflexivity | reflexivity].
  - destruct fuel as [| fuel]; [lia |].
    destruct (Q 0%nat) as (u & Eu & Hu); [lia |].
    simpl in Eu. injection Eu as <-. apply stops_false in Hu as [Hc _].
    destruct (kaprekar_numeral s H) as (d & lines & t & Ek & Ed & Et & Ht).
    pose proof (kaprekar_lines s d lines Ek) as Ll.
    cbn [main_loop]. change "6174" with KAPREKAR_CONST.
    rewrite Hc, Ek. cbn [negb]. rewrite Ed.
    destruct (IH t (step + 1)
                (out ++ [("Step " ++ str (step + 1) ++ ":")%string]
                     ++ lines ++ [("Next number: " ++ t)%string])%list fuel)
      as (body & E & Lb).
    + exact Ht.
    + simpl in It. rewrite Et in It. exact It.
    + now apply (quiet_step s).
    + lia.
    + exists ([("Step " ++ str (step + 1) ++ ":")%string]
               ++ lines ++ [("Next number: " ++ t)%string] ++ body)%list.
      split.
      * rewrite <- app_assoc in E |- *.
        replace (step + Z.of_nat (S k)) with (step + 1 + Z.of_nat k) by lia.
        rewrite E. f_equal. rewrite <- !app_assoc. reflexivity.
      * rewrite !length_app, Ll, Lb. cbn [List.length]. lia.
Qed.

(** X18: on 4 decimal digits not all equal, the interactive tool prints
    6 lines for each step it takes and ends with one line that reports
    the number of steps. *)
Theorem main_output_shape (s : string) (fuel : nat)
  (H : numeral s) (R : is_repdigit s = false) (Hf : (7 <= fuel)%nat) :
  exists (k : nat) (body : list string),
    main fuel s
    = Reached (Z.of_nat k)
        (body ++ [("Reached Kaprekar's constant 6174! in "
                   ++ str (Z.of_nat k) ++ " steps.")%string])%list
    /\ List.length body = (6 * k)%nat /\ (k <= 7)%nat.
Proof.
  destruct (converges s H R) as (j & Hj & It & Q).
  destruct (main_reaches_const_on_numerals s H R) as (V & _).
  destruct (main_loop_trace j s 0 [] fuel H It Q) as (body & M & L); [lia |].
  exists j, body. unfold main. rewrite V. auto.
Qed.

Lemma main_output_shape_witness :
  numeral "3524" /\ is_repdigit "3524" = false /\ (7 <= 7)%nat
  /\ exists (k : nat) (body : list string),
       main 7 "3524"
       = Reached (Z.of_nat k)
           (body ++ [("Reached Kaprekar's constant 6174! in "
                      ++ str (Z.of_nat k) ++ " steps.")%string])%list
       /\ List.length body = (6 * k)%nat /\ (k <= 7)%nat.
Proof.
  assert (Hf : (7 <= 7)%nat) by lia.
  split; [exact numeral_3524 |]. split; [reflexivity |]. split; [exact Hf |].
  exact (main_output_shape "3524" 7 numeral_3524 eq_refl Hf).
Defined.

(** ** The step on digit strings of any length *)


















